(** * Flood risk assessment tool: a shallow embedding of [app.py]

    The Python functions of [app.py] are transcribed as Rocq functions:

    - Python [float] is IEEE-754 binary64, modelled by the primitive type
      [float] of [Floats]; its comparisons and arithmetic are the processor
      ones, specified through [Prim2SF] by the library's [FloatAxioms].
    - Python [str] is a sequence of Unicode code points, the type [str].
    - Python [dict] is an insertion-ordered association list, the type
      [dict].
    - [random.random()] reads the next draw of an explicit [RandomSource].
    - The cache of [@st.cache_data], the random generator and Streamlit's
      [session_state] are the fields of an explicit [World].
    - An exception that is not caught is the result [None]: of [int] in
      [get_text_color], of [next] in [highlight_risk], and in [main] of
      [load_data], of [float] on a coordinate and of a missing key of the
      record found. *)

From Stdlib Require Import ZArith NArith List String Ascii Bool Lia.
From Stdlib Require Import QArith Floats Uint63 DecimalString DecimalN.
Import ListNotations.

Set Warnings "-inexact-float".

(** ** Python strings *)

Module PyStr.

(** A string is the list of its code points. *)
Definition str := list N.

(** An ASCII literal of the source. *)
Definition lit (s : string) : str :=
  List.map N_of_ascii (list_ascii_of_string s).

Fixpoint eqb (s t : str) : bool :=
  match s, t with
  | [], [] => true
  | a :: s', b :: t' => N.eqb a b && eqb s' t'
  | _, _ => false
  end.

(** Truth value of a string: non-empty. *)
Definition truthy (s : str) : bool :=
  match s with [] => false | _ :: _ => true end.

(** Slice [s[i:j]] for [0 <= i <= j]; out-of-range bounds are clipped. *)
Definition slice (i j : nat) (s : str) : str := firstn (j - i) (skipn i s).

Definition is_ascii_digit (c : N) : bool := (48 <=? c)%N && (c <=? 57)%N.

End PyStr.
Import PyStr.

Open Scope float_scope.

(** ** Text colour on a background (app.py, lines 11-16) *)

(** Value of one hexadecimal digit. *)
Definition hex_digit (c : N) : option Z :=
  if ((48 <=? c) && (c <=? 57))%N then Some (Z.of_N c - 48)%Z
  else if ((97 <=? c) && (c <=? 102))%N then Some (Z.of_N c - 87)%Z
  else if ((65 <=? c) && (c <=? 70))%N then Some (Z.of_N c - 55)%Z
  else None.

Fixpoint int16_digits (acc : Z) (s : str) : option Z :=
  match s with
  | [] => Some acc
  | c :: s' =>
      match hex_digit c with
      | Some v => int16_digits (16 * acc + v)%Z s'
      | None => None
      end
  end.

(** [int(s, 16)] on a numeral written with hexadecimal digits only.  [None]
    is the [ValueError] of an empty slice or of a character that is no
    digit; the other spellings that [int] reads (a sign, blanks around the
    numeral, underscores, non-ASCII digits) are not covered and are [None]
    as well. *)
Definition int16 (s : str) : option Z :=
  match s with
  | [] => None
  | _ :: _ => int16_digits 0 s
  end.

(** Conversion of a Python [int] to [float] in mixed arithmetic, for
    [0 <= z < 2^63] (rounded to nearest when the integer has more than 53
    bits). *)
Definition float_of_int (z : Z) : float := of_uint63 (Uint63.of_Z z).

Definition luminance_of (r g b : Z) : float :=
  (0.299 * float_of_int r + 0.587 * float_of_int g + 0.114 * float_of_int b)
  / 255.

Definition get_text_color (bg_color : str) : option str :=
  match int16 (slice 1 3 bg_color) with
  | None => None
  | Some r =>
      match int16 (slice 3 5 bg_color) with
      | None => None
      | Some g =>
          match int16 (slice 5 7 bg_color) with
          | None => None
          | Some b =>
              let luminance := luminance_of r g b in
              Some (if 0.5 <? luminance then lit "black" else lit "white")
          end
      end
  end.

(** ** The random generator *)

(** The module-level generator of [random]: [draws n] is the value that the
    [n]-th call of [random.random()] returns, [position] counts the calls
    made so far. *)
Record RandomSource := { draws : nat -> float; position : nat }.

Definition random (rs : RandomSource) : float * RandomSource :=
  (draws rs (position rs),
   {| draws := draws rs; position := S (position rs) |}).

(** [random.uniform(a, b)] is [a + (b - a) * random()]. *)
Definition uniform (a b : float) (rs : RandomSource) : float * RandomSource :=
  let (u, rs') := random rs in (a + (b - a) * u, rs').

(** ** Dictionaries *)

Module PyDict.

(** Keys in insertion order, each at most once. *)
Definition dict (V : Type) := list (str * V).

Fixpoint get {V} (k : str) (d : dict V) : option V :=
  match d with
  | [] => None
  | (k', v) :: d' => if PyStr.eqb k k' then Some v else get k d'
  end.

Definition contains {V} (k : str) (d : dict V) : bool :=
  match get k d with Some _ => true | None => false end.

(** [d[k] = v]: replaces the value of a present key in place, appends a
    new key. *)
Fixpoint set {V} (k : str) (v : V) (d : dict V) : dict V :=
  match d with
  | [] => [(k, v)]
  | (k', v') :: d' =>
      if PyStr.eqb k k' then (k', v) :: d' else (k', v') :: set k v d'
  end.

Definition keys {V} (d : dict V) : list str := List.map fst d.

End PyDict.
Import PyDict.

(** ** Data loading (app.py, lines 19-27) *)

(** One object of the data file, by the keys that the script reads.
    [load_data] needs [POSTAL] only; the other keys are read when a record
    is reported, and an object may lack them: [None] is a key that the
    object does not have.  With a coordinate the script does one thing: it
    applies [float] to it (line 177).  The file may hold a number there, a
    text or anything else, and [float] may raise; a coordinate is kept as
    what that call makes of it: [Some x] when [float(entry['LATITUDE'])]
    returns [x], [None] when it raises (KeyError for a missing key,
    TypeError, ValueError, OverflowError). *)
Record Address := {
  POSTAL : str;
  ADDRESS : option str;
  ROAD_NAME : option str;
  BUILDING : option str;
  LATITUDE : option float;
  LONGITUDE : option float
}.

(** The same object once [load_data] has added its two flags. *)
Record Entry := {
  fields : Address;
  IS_FLOOD_PRONE : bool;
  IS_FLOOD_HOTSPOT : bool
}.

(** [{entry['POSTAL']: entry for entry in data}] *)
Definition postal_dict_of (data : list Address) : dict Address :=
  fold_left (fun d entry => PyDict.set (POSTAL entry) entry d) data [].

(** The loop over [postal_dict.values()]: two draws per entry, in
    insertion order. *)
Fixpoint assign_flags (d : dict Address) (rs : RandomSource)
  : dict Entry * RandomSource :=
  match d with
  | [] => ([], rs)
  | (k, entry) :: d' =>
      let (u1, rs1) := random rs in
      let (u2, rs2) := random rs1 in
      let (d'', rs3) := assign_flags d' rs2 in
      ((k, {| fields := entry;
              IS_FLOOD_PRONE := u1 <? 0.15;
              IS_FLOOD_HOTSPOT := u2 <? 0.10 |}) :: d'', rs3)
  end.

(** Streamlit's [session_state]; a key that was never written is [None]. *)
Record Session := { postal_search : option str; last_search : option str }.

(** What a run of the script can read and change: the parsed content of
    [database.json.gz] ([None] when the body of [load_data] raises on it:
    the file cannot be read or parsed, or is no list of objects that all
    have the key [POSTAL]), the random generator, the entry of [load_data]
    in the cache of [st.cache_data], and the session. *)
Record World := {
  database : option (list Address);
  rng : RandomSource;
  cache : option (dict Entry);
  session_state : Session
}.

Definition set_rng (w : World) (rs : RandomSource) : World :=
  {| database := database w; rng := rs; cache := cache w;
     session_state := session_state w |}.

Definition set_cache (w : World) (c : option (dict Entry)) : World :=
  {| database := database w; rng := rng w; cache := c;
     session_state := session_state w |}.

Definition set_session (w : World) (ss : Session) : World :=
  {| database := database w; rng := rng w; cache := cache w;
     session_state := ss |}.

(** The body of [load_data]; [None] is the exception of a failed read. *)
Definition load_data_body (w : World) : option (dict Entry * World) :=
  match database w with
  | None => None
  | Some data =>
      let (postal_dict, rs) := assign_flags (postal_dict_of data) (rng w) in
      Some (postal_dict, set_rng w rs)
  end.

(** [load_data] under [@st.cache_data]: the body runs on a cache miss only,
    and its result is stored. *)
Definition load_data (w : World) : option (dict Entry * World) :=
  match cache w with
  | Some postal_dict => Some (postal_dict, w)
  | None =>
      match load_data_body w with
      | None => None
      | Some (postal_dict, w') =>
          Some (postal_dict, set_cache w' (Some postal_dict))
      end
  end.

(** [load_data.clear()], the explicit invalidation. *)
Definition clear_cache (w : World) : World := set_cache w None.

(** ** Risk classification (app.py, lines 30-36) *)

Definition get_risk_class (depth : float) : str * str :=
  if depth <? 0.5 then (lit "Low", lit "#50d890")
  else if depth <=? 1.0 then (lit "Medium", lit "#ffc26f")
  else (lit "High", lit "#ff595e").

(** ** The table of scenarios (app.py, lines 39-49) *)

(** Quotient of [n] by [d > 0] rounded to the nearest integer, ties to the
    even one. *)
Definition div_half_even (n d : Z) : Z :=
  let q := (n / d)%Z in
  let r := (n mod d)%Z in
  if (2 * r <? d)%Z then q
  else if (d <? 2 * r)%Z then (q + 1)%Z
  else if Z.even q then q else (q + 1)%Z.

(** The value [m * 2^e] in hundredths, correctly rounded. *)
Definition hundredths (m : positive) (e : Z) : Z :=
  if (0 <=? e)%Z then (100 * Z.pos m * 2 ^ e)%Z
  else div_half_even (100 * Z.pos m) (2 ^ (- e)).

Definition decimal (n : Z) : str :=
  lit (NilZero.string_of_uint (N.to_uint (Z.to_N n))).

Definition digit_char (d : Z) : N := (48 + Z.to_N d)%N.

Definition sign_str (s : bool) : str := if s then lit "-" else [].

(** The format [f"{depth:.2f}"]: the exact binary value rounded to two
    decimals, ties to even; [inf] and [nan] are spelled out. *)
Definition format_2f (depth : float) : str :=
  match Prim2SF depth with
  | S754_nan => lit "nan"
  | S754_infinity s => sign_str s ++ lit "inf"
  | S754_zero s => sign_str s ++ lit "0.00"
  | S754_finite s m e =>
      let h := hundredths m e in
      sign_str s ++ decimal (h / 100) ++ lit "."
        ++ [digit_char ((h / 10) mod 10); digit_char (h mod 10)]
  end.

(** A row is a dictionary with these four keys. *)
Record Row := {
  Scenario : str;
  Flood_Depth_m : str;
  Risk_Level : str;
  Color : str
}.

(** The body of the loop: the row appended for one scenario. *)
Definition table_row (scenario : str) (depth : float) : Row :=
  let (risk, color) := get_risk_class depth in
  {| Scenario := scenario;
     Flood_Depth_m := format_2f depth;
     Risk_Level := risk;
     Color := color |}.

Definition make_flood_table_rows (baseline rcp85 : float) : list Row :=
  List.map (fun sd : str * float => table_row (fst sd) (snd sd))
    (combine [lit "Baseline"; lit "RCP8.5"] [baseline; rcp85]).

(** ** Highlighting (app.py, lines 52-54) *)

(** [None] is the [StopIteration] of [next] on an exhausted generator. *)
Definition highlight_risk (row : Row) (table_rows : list Row)
  : option (list str) :=
  match
    find (fun r => PyStr.eqb (Scenario r) (Scenario row)) table_rows
  with
  | None => None
  | Some r =>
      Some [ []; []; lit "color: " ++ Color r ++ lit "; font-weight: bold;" ]
  end.

(** ** Flood depths (app.py, lines 57-58) *)

Definition get_flood_depth (postal_code : str) (lat lon : float)
  (rs : RandomSource) : (float * float) * RandomSource :=
  let (baseline, rs1) := uniform 0 1.5 rs in
  let (rcp85, rs2) := uniform 0 1.5 rs1 in
  ((baseline, rcp85), rs2).

(** ** Regular expressions *)

Module Re.

(** Start of the code-point ranges of ten decimal digits each (Unicode
    category Nd, Unicode 14); the mathematical digits form one more range
    of fifty. *)
Definition digit_decades : list N :=
  [48; 1632; 1776; 1984; 2406; 2534; 2662; 2790; 2918; 3046; 3174;
   3302; 3430; 3558; 3664; 3792; 3872; 4160; 4240; 6112; 6160; 6470;
   6608; 6784; 6800; 6992; 7088; 7232; 7248; 42528; 43216; 43264;
   43472; 43504; 43600; 44016; 65296; 66720; 68912; 69734; 69872;
   69942; 70096; 70384; 70736; 70864; 71248; 71360; 71472; 71904;
   72016; 72784; 73040; 73120; 92768; 92864; 93008; 123200; 123632;
   125264; 130032]%N.

(** [\d] on [str] patterns: any Unicode decimal digit. *)
Definition is_decimal (c : N) : bool :=
  existsb (fun lo => (lo <=? c) && (c <? lo + 10))%N digit_decades
  || ((120782 <=? c) && (c <? 120832))%N.

Inductive atom :=
| Bol     (* ^ *)
| Eol     (* $ *)
| Digit.  (* \d *)

Inductive regex :=
| Atom (a : atom)
| Seq (r1 r2 : regex)
| Times (n : nat) (r : regex).  (* r{n} *)

Fixpoint atoms (r : regex) : list atom :=
  match r with
  | Atom a => [a]
  | Seq r1 r2 => atoms r1 ++ atoms r2
  | Times n r' => List.concat (List.repeat (atoms r') n)
  end.

(** Where [$] holds: at the end of the subject, and just before a newline
    that ends it. *)
Definition at_end (rest : str) : bool :=
  match rest with
  | [] => true
  | [c] => (c =? 10)%N
  | _ :: _ :: _ => false
  end.

(** Matching at the current position; [at_start] tells whether it is
    position 0, [rest] is what remains of the subject.  Without the
    MULTILINE flag [^] holds at position 0 only. *)
Fixpoint match_here (p : list atom) (at_start : bool) (rest : str) : bool :=
  match p with
  | [] => true
  | Bol :: p' => at_start && match_here p' at_start rest
  | Eol :: p' => at_end rest && match_here p' at_start rest
  | Digit :: p' =>
      match rest with
      | c :: rest' => is_decimal c && match_here p' false rest'
      | [] => false
      end
  end.

(** [re.match]: the pattern must match at the start of the subject. *)
Definition re_match (r : regex) (s : str) : bool :=
  match_here (atoms r) true s.

End Re.

(** ** The script (app.py, lines 132-291) *)

(** [r'^\d{6}$'] *)
Definition postal_pattern : Re.regex :=
  Re.Seq (Re.Atom Re.Bol)
    (Re.Seq (Re.Times 6 (Re.Atom Re.Digit)) (Re.Atom Re.Eol)).

Definition invalid_format_message : str :=
  [9888; 65039]%N
    ++ lit " Please enter a valid 6-digit postal code (e.g., 018989)".

Definition not_found_message : str :=
  [10060]%N
    ++ lit " Postal code not found in database. Please verify the code and try again.".

Definition prompt_message : str :=
  [128070]%N
    ++ lit " Enter a 6-digit Singapore postal code above to begin risk assessment".

(** What a run shows below the search bar. *)
Inductive Outcome :=
| Error (message : str)                       (* st.error *)
| Info (message : str)                        (* st.info *)
| Report (entry : Entry) (table_rows : list Row)
    (is_flood_prone is_flood_hotspot : bool)  (* the assessment *)
| Blank.

Definition or_default (o : option str) : str :=
  match o with Some s => s | None => [] end.

(** The callback of the Clear button, run before the script is run again. *)
Definition clear_input (w : World) : World :=
  set_session w {| postal_search := Some []; last_search := Some [] |}.

(** One run of [main] up to the data handed to the widgets: [postal_code]
    is what the text input returns and [search] what the button returns.
    [None] is an uncaught exception: of [load_data], of one of the two
    calls of [float] on the coordinates of the record found (line 177), or
    the KeyError of a text of the record that is read for the location
    details (lines 189-192). *)
Definition main (w : World) (postal_code : str) (search : bool)
  : option (Outcome * World) :=
  match load_data w with
  | None => None
  | Some (postal_dict, w1) =>
      let ss := session_state w1 in
      let ss1 :=
        {| postal_search := Some postal_code;
           last_search := Some (or_default (last_search ss)) |} in
      if truthy postal_code && negb (Re.re_match postal_pattern postal_code)
      then Some (Error invalid_format_message, set_session w1 ss1)
      else
        let trigger_search :=
          search
          || (truthy postal_code
              && negb (PyStr.eqb postal_code (or_default (last_search ss1)))
              && (List.length postal_code =? 6)%nat) in
        if trigger_search && truthy postal_code then
          let ss2 :=
            {| postal_search := Some postal_code;
               last_search := Some postal_code |} in
          let w2 := set_session w1 ss2 in
          if PyDict.contains postal_code postal_dict then
            match PyDict.get postal_code postal_dict with
            | None => None
            | Some entry =>
                match LATITUDE (fields entry), LONGITUDE (fields entry) with
                | Some lat, Some lon =>
                    let (depths, rs) :=
                      get_flood_depth postal_code lat lon (rng w2) in
                    let (depth_baseline, depth_rcp85) := depths in
                    let table_rows :=
                      make_flood_table_rows depth_baseline depth_rcp85 in
                    let is_flood_prone := IS_FLOOD_PRONE entry in
                    let is_flood_hotspot := IS_FLOOD_HOTSPOT entry in
                    match ADDRESS (fields entry), ROAD_NAME (fields entry),
                          BUILDING (fields entry) with
                    | Some _, Some _, Some _ =>
                        Some (Report entry table_rows
                                is_flood_prone is_flood_hotspot,
                              set_rng w2 rs)
                    | _, _, _ => None
                    end
                | _, _ => None
                end
            end
          else Some (Error not_found_message, w2)
        else if negb (truthy postal_code)
        then Some (Info prompt_message, set_session w1 ss1)
        else Some (Blank, set_session w1 ss1)
  end.

(** ** Notions used in the statements *)

(** A well-formed postal code: exactly six ASCII decimal digits. *)
Definition well_formed_postal_code (s : str) : bool :=
  (List.length s =? 6)%nat && forallb is_ascii_digit s.

(** A record that a report can be made from: [float] converts its two
    coordinates (line 177) and it has the three texts of the location
    details (lines 189-192). *)
Definition reportable (r : Entry) : bool :=
  match LATITUDE (fields r), LONGITUDE (fields r) with
  | Some _, Some _ =>
      match ADDRESS (fields r), ROAD_NAME (fields r), BUILDING (fields r) with
      | Some _, Some _, Some _ => true
      | _, _, _ => false
      end
  | _, _ => false
  end.

(** A sample data file of one address, a generator whose first two draws
    are below both thresholds and whose later draws are above them, and the
    world of a fresh process. *)
Definition sample_address : Address :=
  {| POSTAL := lit "018989"; ADDRESS := Some (lit "1 MARINA BOULEVARD");
     ROAD_NAME := Some (lit "MARINA BOULEVARD");
     BUILDING := Some (lit "NIL");
     LATITUDE := Some 1.28; LONGITUDE := Some 103.85 |}.

Definition sample_source : RandomSource :=
  {| draws := fun n => if (n <? 2)%nat then 0.05 else 0.9; position := 0 |}.

Definition fresh_world : World :=
  {| database := Some [sample_address];
     rng := sample_source;
     cache := None;
     session_state := {| postal_search := None; last_search := None |} |}.

(** The store and the world after the first load of [fresh_world]. *)
Definition sample_entry : Entry :=
  {| fields := sample_address;
     IS_FLOOD_PRONE := true; IS_FLOOD_HOTSPOT := true |}.

Definition loaded_store : dict Entry := [(lit "018989", sample_entry)].

Definition loaded_world : World :=
  {| database := Some [sample_address];
     rng := {| draws := draws sample_source; position := 2 |};
     cache := Some loaded_store;
     session_state := {| postal_search := None; last_search := None |} |}.

(** A number printed with exactly two decimal places: an optional minus
    sign, one digit or more, a point, two digits. *)
Definition two_decimal_places (s : str) : bool :=
  match rev s with
  | d2 :: d1 :: point :: int_part_rev =>
      is_ascii_digit d2 && is_ascii_digit d1 && (point =? 46)%N
      && (let int_part :=
            match rev int_part_rev with
            | 45%N :: t => t
            | t => t
            end in
          truthy int_part && forallb is_ascii_digit int_part)
  | _ => false
  end.

(** The decoded value of the channel written with the two hexadecimal
    digits [hi] and [lo]. *)
Definition hex_value (c : N) : Z :=
  match hex_digit c with Some v => v | None => 0%Z end.

Definition is_hex_digit (c : N) : bool :=
  match hex_digit c with Some _ => true | None => false end.

Definition channel (hi lo : N) : Z := (16 * hex_value hi + hex_value lo)%Z.

(** The relative luminance as a number: the formula of the specification
    over the rationals. *)
Definition luminance_exact (r g b : Z) : Q :=
  (((299 # 1000) * inject_Z r + (587 # 1000) * inject_Z g
    + (114 # 1000) * inject_Z b) / inject_Z 255)%Q.

(** The test of [get_text_color] on machine integers, and its comparison
    with the exact test [299 r + 587 g + 114 b > 127500], the colour
    (218, 58, 248) set apart. *)
Definition luminance_int (i j k : int) : float :=
  (0.299 * of_uint63 i + 0.587 * of_uint63 j + 0.114 * of_uint63 k) / 255.

Definition agrees_with_exact (i j k : int) : bool :=
  ((i =? 218) && (j =? 58) && (k =? 248))%uint63
  || Bool.eqb (0.5 <? luminance_int i j k)
       (127500 <? 299 * i + 587 * j + 114 * k)%uint63.

(** The 256 channel values as machine integers, written out. *)
Definition channel_values : list int := Eval vm_compute in
    List.map (fun n => Uint63.of_Z (Z.of_nat n)) (seq 0 256).

(** The range of [random.random()]: [0 <= u < 1]. *)
Definition in_unit_interval (u : float) : bool := (0 <=? u) && (u <? 1.0).

(** A data file in which two objects carry the same postal code. *)
Definition sample_address_2 : Address :=
  {| POSTAL := lit "018989"; ADDRESS := Some (lit "8 MARINA VIEW");
     ROAD_NAME := Some (lit "MARINA VIEW");
     BUILDING := Some (lit "ASIA SQUARE");
     LATITUDE := Some 1.27; LONGITUDE := Some 103.85 |}.

Definition duplicate_world : World :=
  {| database := Some [sample_address; sample_address_2];
     rng := sample_source;
     cache := None;
     session_state := {| postal_search := None; last_search := None |} |}.

(** A store whose one record has a latitude that [float] rejects. *)
Definition unlocated_entry : Entry :=
  {| fields :=
       {| POSTAL := lit "049145"; ADDRESS := Some (lit "1 RAFFLES QUAY");
          ROAD_NAME := Some (lit "RAFFLES QUAY");
          BUILDING := Some (lit "NIL");
          LATITUDE := None; LONGITUDE := Some 103.85 |};
     IS_FLOOD_PRONE := false; IS_FLOOD_HOTSPOT := false |}.

Definition unlocated_world : World :=
  {| database := Some [fields unlocated_entry];
     rng := sample_source;
     cache := Some [(lit "049145", unlocated_entry)];
     session_state := {| postal_search := None; last_search := None |} |}.

(** ** The data frame and its styling (app.py, lines 180 and 197-198) *)

(** [row.items()] *)
Definition row_items (r : Row) : dict str :=
  [ (lit "Scenario", Scenario r);
    (lit "Flood Depth (m)", Flood_Depth_m r);
    (lit "Risk Level", Risk_Level r);
    (lit "Color", Color r) ].

(** [{k: v for k, v in row.items() if k != "Color"}] *)
Definition without_color (r : Row) : dict str :=
  filter (fun kv => negb (PyStr.eqb (fst kv) (lit "Color"))) (row_items r).

(** A row of the data frame as [highlight_risk] reads it; a column that
    the frame does not have is left empty (the function reads [Scenario]
    only). *)
Definition row_of_items (items : dict str) : Row :=
  {| Scenario := or_default (PyDict.get (lit "Scenario") items);
     Flood_Depth_m := or_default (PyDict.get (lit "Flood Depth (m)") items);
     Risk_Level := or_default (PyDict.get (lit "Risk Level") items);
     Color := or_default (PyDict.get (lit "Color") items) |}.

(** [df.style.apply(lambda r: highlight_risk(r, table_rows), axis=1)]: each
    row of the frame with the styles computed for it. *)
Definition styled_rows (table_rows : list Row)
  : list (dict str * option (list str)) :=
  List.map
    (fun record => (record, highlight_risk (row_of_items record) table_rows))
    (List.map without_color table_rows).

(** ** Reading a printed depth back *)

Definition to_string (s : str) : string :=
  string_of_list_ascii (List.map ascii_of_N s).

Definition read_digits (s : str) : option N :=
  option_map N.of_uint (NilZero.uint_of_string (to_string s)).

(** Reads [-]digits.dd as a sign and a number of hundredths. *)
Definition read_2f (s : str) : option (bool * N) :=
  match rev s with
  | d2 :: d1 :: 46%N :: int_rev =>
      let body := rev int_rev in
      let signed :=
        match body with
        | 45%N :: t => (true, t)
        | _ => (false, body)
        end in
      match read_digits (snd signed), read_digits [d1; d2] with
      | Some i, Some c => Some (fst signed, (100 * i + c)%N)
      | _, _ => None
      end
  | _ => None
  end.

(** * Properties *)

(** ** Facts on binary64 comparison *)

Module FloatFacts.

Lemma Prim2SF_zero : Prim2SF 0 = S754_zero false.
Proof. vm_compute. reflexivity. Qed.

Lemma Prim2SF_half : Prim2SF 0.5 = S754_finite false 4503599627370496 (-53).
Proof. vm_compute. reflexivity. Qed.

Lemma Prim2SF_one : Prim2SF 1.0 = S754_finite false 4503599627370496 (-52).
Proof. vm_compute. reflexivity. Qed.

Lemma Prim2SF_1_5 : Prim2SF 1.5 = S754_finite false 6755399441055744 (-52).
Proof. vm_compute. reflexivity. Qed.

Lemma is_nan_spec (x : float) :
  is_nan x = match Prim2SF x with S754_nan => true | _ => false end.
Proof.
  unfold is_nan. rewrite FloatAxioms.eqb_spec. unfold SFeqb, SFcompare.
  destruct (Prim2SF x) as [s|s| |s m e]; try (destruct s); try reflexivity;
    rewrite Z.compare_refl, Pos.compare_cont_refl; reflexivity.
Qed.

(** Turns a goal on primitive comparisons against the thresholds of the
    program into case analysis on the specification float of [d]. *)
Ltac to_spec d :=
  rewrite ?FloatAxioms.ltb_spec, ?FloatAxioms.leb_spec, ?is_nan_spec in *;
  rewrite ?Prim2SF_zero, ?Prim2SF_half, ?Prim2SF_one, ?Prim2SF_1_5 in *;
  unfold SFltb, SFleb, SFcompare in *;
  destruct (Prim2SF d) as [s|s| |s m e]; try destruct s.

Ltac split_Zcompare a b :=
  let E := fresh "E" in
  destruct (Z.compare a b) eqn:E;
  [ apply Z.compare_eq_iff in E
  | change (a < b)%Z in E
  | apply Z.compare_gt_iff in E ].

Lemma compare_cont_Eq (p q : positive) :
  Pos.compare_cont Eq p q = Pos.compare p q.
Proof. reflexivity. Qed.

Ltac split_Pcompare a b :=
  let E := fresh "E" in
  rewrite (compare_cont_Eq a b);
  destruct (Pos.compare a b) eqn:E;
  [ apply Pos.compare_eq_iff in E; apply (f_equal Z.pos) in E
  | apply Pos.compare_lt_iff in E; apply Pos2Z.pos_lt_pos in E
  | apply Pos.compare_gt_iff in E; apply Pos2Z.pos_lt_pos in E ].

(** Works on the conclusion only: the comparisons are kept there as
    premises until every [compare] has been split. *)
Ltac cmp_cases :=
  repeat match goal with
    | |- context [Z.compare ?a ?b] => split_Zcompare a b
    | |- context [Pos.compare_cont Eq ?a ?b] => split_Pcompare a b
    end.

Ltac float_order d :=
  to_spec d; cmp_cases; intros; try congruence; try lia.

Lemma below_half_or_above (d : float) :
  is_nan d = false -> (d <? 0.5) = false -> (0.5 <=? d) = true.
Proof. float_order d. Qed.

Lemma le_one_not_nan (d : float) : (d <=? 1.0) = true -> is_nan d = false.
Proof. float_order d. Qed.

Lemma lt_half_not_ge (d : float) : (d <? 0.5) = true -> (0.5 <=? d) = false.
Proof. float_order d. Qed.

Lemma lt_half_not_gt_one (d : float) :
  (d <? 0.5) = true -> (1.0 <? d) = false.
Proof. float_order d. Qed.

Lemma le_one_not_gt (d : float) : (d <=? 1.0) = true -> (1.0 <? d) = false.
Proof. float_order d. Qed.

Lemma not_le_one_gt (d : float) :
  is_nan d = false -> (d <=? 1.0) = false -> (1.0 <? d) = true.
Proof. float_order d. Qed.

Lemma gt_one_not_lt_half (d : float) :
  (1.0 <? d) = true -> (d <? 0.5) = false.
Proof. float_order d. Qed.

Lemma neg_lt_half (d : float) : (d <? 0) = true -> (d <? 0.5) = true.
Proof. float_order d. Qed.

End FloatFacts.

(** ** Facts on binary64 rounding *)

Module RoundingFacts.

Local Open Scope Z_scope.

Lemma digits2_bounds (p : positive) :
  2 ^ (Z.pos (digits2_pos p) - 1) <= Z.pos p < 2 ^ Z.pos (digits2_pos p).
Proof.
  induction p as [p IH|p IH|]; cbn [digits2_pos].
  - rewrite Pos2Z.inj_succ, (Pos2Z.inj_xI p).
    replace (Z.succ (Z.pos (digits2_pos p)) - 1)
      with (Z.succ (Z.pos (digits2_pos p) - 1)) by lia.
    rewrite !Z.pow_succ_r by lia.
    generalize dependent (2 ^ (Z.pos (digits2_pos p) - 1)).
    generalize (2 ^ Z.pos (digits2_pos p)). intros; lia.
  - rewrite Pos2Z.inj_succ, (Pos2Z.inj_xO p).
    replace (Z.succ (Z.pos (digits2_pos p)) - 1)
      with (Z.succ (Z.pos (digits2_pos p) - 1)) by lia.
    rewrite !Z.pow_succ_r by lia.
    generalize dependent (2 ^ (Z.pos (digits2_pos p) - 1)).
    generalize (2 ^ Z.pos (digits2_pos p)). intros; lia.
  - cbn. lia.
Qed.

Lemma Zdigits2_bounds (m : Z) :
  0 < m -> 2 ^ (Zdigits2 m - 1) <= m < 2 ^ Zdigits2 m.
Proof.
  destruct m as [|p|p]; try lia. intros _. apply digits2_bounds.
Qed.

Lemma Zdigits2_pos (m : Z) : 0 < m -> 0 < Zdigits2 m.
Proof. destruct m; cbn; lia. Qed.

(** From a bound on the number to a bound on its count of binary digits. *)
Lemma Zdigits2_le (m : Z) (k : Z) :
  0 < m -> 0 <= k -> m < 2 ^ k -> Zdigits2 m <= k.
Proof.
  intros Hm Hk H. pose proof (Zdigits2_bounds m Hm) as [L _].
  pose proof (Zdigits2_pos m Hm).
  assert (2 ^ (Zdigits2 m - 1) < 2 ^ k) as P by lia.
  apply Z.pow_lt_mono_r_iff in P; lia.
Qed.

Lemma Zdigits2_gt (m : Z) (k : Z) : 0 <= k -> 2 ^ k <= m -> k < Zdigits2 m.
Proof.
  intros Hk H.
  assert (0 < m) as Hm. { pose proof (Z.pow_pos_nonneg 2 k). lia. }
  pose proof (Zdigits2_bounds m Hm) as [_ U].
  pose proof (Zdigits2_pos m Hm).
  assert (2 ^ k < 2 ^ Zdigits2 m) as P by lia.
  apply Z.pow_lt_mono_r_iff in P; lia.
Qed.

Lemma shr_1_m (r : shr_record) :
  0 <= shr_m r -> shr_m (shr_1 r) = Z.shiftr (shr_m r) 1.
Proof.
  destruct r as [m rb sb]. cbn [shr_m]. intros H.
  rewrite Z.shiftr_div_pow2 by lia. change (2 ^ 1) with 2.
  destruct m as [|[p|p|]|p]; cbn [shr_1 shr_m]; try lia.
  - reflexivity.
  - rewrite (Pos2Z.inj_xI p). apply Z.div_unique with 1; lia.
  - rewrite (Pos2Z.inj_xO p). apply Z.div_unique with 0; lia.
  - reflexivity.
Qed.

Lemma iter_pos_shr_m (n : positive) (r : shr_record) :
  0 <= shr_m r ->
  shr_m (iter_pos shr_1 n r) = Z.shiftr (shr_m r) (Z.pos n).
Proof.
  revert r. induction n as [n IH|n IH|]; intros r H; cbn [iter_pos].
  - assert (0 <= shr_m (shr_1 r)) as H1.
    { rewrite shr_1_m by assumption. apply Z.shiftr_nonneg. assumption. }
    assert (0 <= shr_m (iter_pos shr_1 n (shr_1 r))) as H2.
    { rewrite IH by assumption. apply Z.shiftr_nonneg. assumption. }
    rewrite IH, IH, shr_1_m by assumption.
    rewrite !Z.shiftr_shiftr by lia. f_equal. lia.
  - assert (0 <= shr_m (iter_pos shr_1 n r)) as H2.
    { rewrite IH by assumption. apply Z.shiftr_nonneg. assumption. }
    rewrite IH, IH by assumption.
    rewrite !Z.shiftr_shiftr by lia. f_equal. lia.
  - apply shr_1_m. assumption.
Qed.

Lemma round_nearest_even_bounds (m : Z) (l : location) :
  m <= round_nearest_even m l <= m + 1.
Proof.
  unfold round_nearest_even. destruct l as [|[| |]]; try lia.
  destruct (Z.even m); lia.
Qed.

Lemma shr_record_of_loc_m m l : shr_m (shr_record_of_loc m l) = m.
Proof. destruct l as [|[| |]]; reflexivity. Qed.

(** One rounding shift: what [shr_fexp] does to a non-negative mantissa. *)
Lemma shr_fexp_m (prec emax m e : Z) (l : location) :
  0 <= m ->
  let n := fexp prec emax (Zdigits2 m + e) - e in
  let r := shr_fexp prec emax m e l in
  (n <= 0 -> shr_m (fst r) = m /\ snd r = e)
  /\ (0 < n -> shr_m (fst r) = m / 2 ^ n /\ snd r = e + n).
Proof.
  intros Hm n r. unfold r, shr_fexp. fold n. unfold shr.
  destruct n as [|p|p]; cbn [fst snd]; split; intros H; try lia.
  - split; [apply shr_record_of_loc_m | reflexivity].
  - split; [|reflexivity].
    rewrite iter_pos_shr_m, shr_record_of_loc_m
      by (rewrite shr_record_of_loc_m; lia).
    apply Z.shiftr_div_pow2. lia.
  - split; [apply shr_record_of_loc_m | reflexivity].
Qed.

Lemma fexp64 (x : Z) : fexp 53 1024 x = Z.max (x - 53) (-1074).
Proof. reflexivity. Qed.

Lemma pow2_le (a b : Z) : 0 <= a <= b -> 2 ^ a <= 2 ^ b.
Proof. intros H. apply Z.pow_le_mono_r; lia. Qed.

(** The product of 1.5 and a canonical float below 1, rounded. *)
Lemma round_product_bound (m : positive) (e : Z) :
  canonical_mantissa 53 1024 m e = true ->
  e <= -53 ->
  let y :=
    binary_round_aux 53 1024 false (Z.pos (6755399441055744 * m)) (-52 + e)
      loc_Exact in
  y = S754_zero false
  \/ exists m' e',
       y = S754_finite false m' e'
       /\ (e' < -52 \/ (e' = -52 /\ Z.pos m' <= 6755399441055744)).
Proof.
  intros Hc He y. subst y.
  unfold canonical_mantissa in Hc. rewrite fexp64 in Hc.
  apply Z.eqb_eq in Hc.
  pose proof (digits2_bounds m) as [Dl Du].
  set (d := Z.pos (digits2_pos m)) in *.
  assert (0 < d) as Hd by (unfold d; lia).
  assert (d <= 53) as Hd53 by lia.
  assert (Z.pos m < 2 ^ 53) as Hm53.
  { pose proof (pow2_le d 53 ltac:(lia)). lia. }
  assert (P52 : 2 ^ 52 = 4503599627370496) by reflexivity.
  assert (P53 : 2 ^ 53 = 9007199254740992) by reflexivity.
  assert (P104 : 2 ^ 104 = 20282409603651670423947251286016) by reflexivity.
  assert (P105 : 2 ^ 105 = 40564819207303340847894502572032) by reflexivity.
  assert (P106 : 2 ^ 106 = 81129638414606681695789005144064) by reflexivity.
  set (M := Z.pos (6755399441055744 * m)).
  assert (HM : M = 6755399441055744 * Z.pos m).
  { unfold M. rewrite Pos2Z.inj_mul. reflexivity. }
  assert (0 < M) as HMpos by (unfold M; lia).
  pose proof (Zdigits2_bounds M HMpos) as [DMl DMu].
  pose proof (Zdigits2_pos M HMpos) as DMpos.
  set (dM := Zdigits2 M) in *.
  (* the first shift *)
  assert (exists n1,
             fexp 53 1024 (dM + (-52 + e)) - (-52 + e) = n1
             /\ ((n1 = 52 /\ M / 2 ^ 52 < 2 ^ 53)
                 \/ (n1 = 53 /\ M / 2 ^ 53 < 6755399441055744)))
    as (n1 & Hn1 & Hcase).
  { rewrite fexp64.
    destruct (Z.eq_dec d 53) as [E53|N53].
    - (* normal *)
      rewrite E53 in Dl. change (53 - 1) with 52 in Dl.
      assert (104 < dM) as L1.
      { apply Zdigits2_gt; [lia|]. rewrite P104. lia. }
      assert (dM <= 106) as L2.
      { apply Zdigits2_le; [lia|lia|]. rewrite P106. lia. }
      assert (dM = 105 \/ dM = 106) as [D|D] by lia.
      + exists 52. split; [lia|]. left. split; [reflexivity|].
        rewrite D, P105 in DMu. rewrite P52, P53.
        apply Z.div_lt_upper_bound; lia.
      + exists 53. split; [lia|]. right. split; [reflexivity|].
        rewrite P53. apply Z.div_lt_upper_bound; lia.
    - (* subnormal *)
      assert (e = -1074) as E1074 by lia.
      assert (d <= 52) as Hd52 by lia.
      assert (Z.pos m < 2 ^ 52) as Hm52.
      { pose proof (pow2_le d 52 ltac:(lia)). lia. }
      assert (dM <= 105) as L2.
      { apply Zdigits2_le; [lia|lia|]. rewrite P105. lia. }
      exists 52. split; [lia|]. left. split; [reflexivity|].
      rewrite P52, P53. apply Z.div_lt_upper_bound; lia. }
  unfold binary_round_aux.
  pose proof (shr_fexp_m 53 1024 M (-52 + e) loc_Exact ltac:(lia)) as S1.
  cbv zeta in S1. fold dM in S1. rewrite Hn1 in S1.
  destruct (shr_fexp 53 1024 M (-52 + e) loc_Exact) as [mrs' e'].
  cbn [fst snd] in S1. destruct S1 as [_ S1].
  assert (0 < n1) as Hn1pos by (destruct Hcase as [[-> _]|[-> _]]; lia).
  destruct (S1 Hn1pos) as [Hm' He']. clear S1.
  pose proof (round_nearest_even_bounds (shr_m mrs') (loc_of_shr_record mrs'))
    as Hr.
  set (m1 := round_nearest_even (shr_m mrs') (loc_of_shr_record mrs')) in *.
  assert (0 <= shr_m mrs') as Hm'0.
  { rewrite Hm'. apply Z.div_pos; [lia|]. apply Z.pow_pos_nonneg; lia. }
  assert (0 <= m1) as Hm10 by lia.
  pose proof (shr_fexp_m 53 1024 m1 e' loc_Exact Hm10) as S2.
  cbv zeta in S2. rewrite fexp64 in S2.
  destruct (shr_fexp 53 1024 m1 e' loc_Exact) as [mrs'' e''].
  cbn [fst snd] in S2.
  (* bounds after the first rounding *)
  assert (e' >= -1074) as He'lo by lia.
  assert (m1 <= 2 ^ 53 /\ (e' = e \/ (e' = e + 1 /\ m1 <= 6755399441055744)))
    as [Hm1 He'c].
  { destruct Hcase as [[-> B]|[-> B]]; rewrite Hm' in Hr; rewrite ?P53 in *;
      lia. }
  destruct (Z.eq_dec m1 0) as [Z1|NZ1].
  - (* rounded to zero *)
    left. rewrite Z1 in S2. cbn [Zdigits2] in S2.
    destruct S2 as [S2 _]. destruct (S2 ltac:(lia)) as [-> _]. reflexivity.
  - assert (0 < m1) as Hm1pos by lia.
    pose proof (Zdigits2_bounds m1 Hm1pos) as [D1l D1u].
    pose proof (Zdigits2_pos m1 Hm1pos) as D1pos.
    destruct (Z.eq_dec m1 (2 ^ 53)) as [Etop|Ntop].
    + (* carry: one more shift *)
      assert (Zdigits2 m1 = 54) as D54 by (rewrite Etop; reflexivity).
      rewrite D54 in S2. destruct S2 as [_ S2].
      assert (e' = e) as -> by (rewrite P53 in *; lia).
      replace (Z.max (54 + e - 53) (-1074) - e) with 1 in S2 by lia.
      destruct (S2 ltac:(lia)) as [Hm'' He'']. clear S2.
      rewrite Etop in Hm''.
      change (2 ^ 53 / 2 ^ 1) with 4503599627370496 in Hm''.
      rewrite Hm'', He''. right. exists 4503599627370496%positive, (e + 1).
      replace (e + 1 <=? 1024 - 53) with true
        by (symmetry; apply Z.leb_le; lia).
      split; [reflexivity|]. lia.
    + assert (Zdigits2 m1 <= 53) as D53.
      { apply Zdigits2_le; lia. }
      destruct S2 as [S2 _]. destruct (S2 ltac:(lia)) as [Hm'' He''].
      clear S2.
      rewrite Hm'', He''. destruct m1 as [|p1|p1]; try lia.
      right. exists p1, e'.
      replace (e' <=? 1024 - 53) with true
        by (symmetry; apply Z.leb_le; lia).
      split; [reflexivity|]. lia.
Qed.

End RoundingFacts.

(** ** The risk classifier *)

Section RiskClass.

Import FloatFacts.

Lemma level_names_distinct :
  lit "Low" <> lit "Medium" /\ lit "Low" <> lit "High"
  /\ lit "Medium" <> lit "High".
Proof. repeat split; discriminate. Qed.

Lemma colors_distinct :
  lit "#50d890" <> lit "#ffc26f" /\ lit "#50d890" <> lit "#ff595e"
  /\ lit "#ffc26f" <> lit "#ff595e".
Proof. repeat split; discriminate. Qed.

(** The three branches, by the outcome of the two tests. *)
Lemma get_risk_class_cases (d : float) :
  ((d <? 0.5) = true /\ get_risk_class d = (lit "Low", lit "#50d890"))
  \/ ((d <? 0.5) = false /\ (d <=? 1.0) = true
      /\ get_risk_class d = (lit "Medium", lit "#ffc26f"))
  \/ ((d <? 0.5) = false /\ (d <=? 1.0) = false
      /\ get_risk_class d = (lit "High", lit "#ff595e")).
Proof.
  unfold get_risk_class.
  destruct (d <? 0.5); [left; split; reflexivity|].
  destruct (d <=? 1.0); [right; left | right; right];
    repeat split; reflexivity.
Qed.

(** The colour determines the level and the level the colour, on every
    input. *)
Lemma color_bound_to_level (d : float) :
  (snd (get_risk_class d) = lit "#50d890"
     <-> fst (get_risk_class d) = lit "Low")
  /\ (snd (get_risk_class d) = lit "#ffc26f"
     <-> fst (get_risk_class d) = lit "Medium")
  /\ (snd (get_risk_class d) = lit "#ff595e"
     <-> fst (get_risk_class d) = lit "High").
Proof.
  destruct (get_risk_class_cases d) as [[_ E]|[(_ & _ & E)|(_ & _ & E)]];
    rewrite E; cbn [fst snd];
    repeat split; intros H; try reflexivity; discriminate H.
Qed.

Lemma boundary_half_is_medium :
  get_risk_class 0.5 = (lit "Medium", lit "#ffc26f").
Proof. reflexivity. Qed.

Lemma boundary_one_is_medium :
  get_risk_class 1.0 = (lit "Medium", lit "#ffc26f").
Proof. reflexivity. Qed.

End RiskClass.

(** A depth of the domain of the classifier, [0 <= d], is a number. *)
Lemma nonnegative_is_a_number (d : float) :
  (0 <=? d) = true -> is_nan d = false.
Proof.
  rewrite FloatFacts.is_nan_spec, FloatAxioms.leb_spec.
  rewrite FloatFacts.Prim2SF_zero. unfold SFleb, SFcompare.
  destruct (Prim2SF d) as [s|s| |s m e]; try reflexivity.
  discriminate.
Qed.

(** C1.  On every depth the colour is bound one-to-one to the level: Low
    with #50d890, Medium with #ffc26f, High with #ff595e.  For every depth
    [d] that is a number (every float but NaN: the depths [0 <= d] of the
    domain of the classifier, and the negative ones), the level is Low iff
    [d < 0.5], Medium iff [0.5 <= d <= 1.0] and High iff [d > 1.0]. *)
Theorem C1_risk_bands (d : float) :
  ((snd (get_risk_class d) = lit "#50d890"
    <-> fst (get_risk_class d) = lit "Low")
   /\ (snd (get_risk_class d) = lit "#ffc26f"
       <-> fst (get_risk_class d) = lit "Medium")
   /\ (snd (get_risk_class d) = lit "#ff595e"
       <-> fst (get_risk_class d) = lit "High"))
  /\ (is_nan d = false ->
      (fst (get_risk_class d) = lit "Low" <-> (d <? 0.5) = true)
      /\ (fst (get_risk_class d) = lit "Medium"
          <-> (0.5 <=? d) = true /\ (d <=? 1.0) = true)
      /\ (fst (get_risk_class d) = lit "High" <-> (1.0 <? d) = true)).
Proof.
  split; [apply color_bound_to_level|].
  intros Hnum.
  split; [|split].
  - destruct (get_risk_class_cases d) as [[L E]|[(L & M & E)|(L & M & E)]];
      rewrite E; cbn [fst]; split; intros H;
      try reflexivity; try assumption; try discriminate H; congruence.
  - destruct (get_risk_class_cases d) as [[L E]|[(L & M & E)|(L & M & E)]];
      rewrite E; cbn [fst]; split; intros H; try reflexivity;
      try discriminate H.
    + destruct H as [H _].
      rewrite (FloatFacts.lt_half_not_ge d L) in H. discriminate H.
    + split; [apply FloatFacts.below_half_or_above|]; assumption.
    + destruct H as [_ H]. congruence.
  - destruct (get_risk_class_cases d) as [[L E]|[(L & M & E)|(L & M & E)]];
      rewrite E; cbn [fst]; split; intros H; try reflexivity;
      try discriminate H.
    + rewrite (FloatFacts.lt_half_not_gt_one d L) in H. discriminate H.
    + rewrite (FloatFacts.le_one_not_gt d M) in H. discriminate H.
    + apply FloatFacts.not_le_one_gt; assumption.
Qed.

Lemma C1_risk_bands_witness :
  is_nan 0.5 = false
  /\ (fst (get_risk_class 0.5) = lit "Medium"
      <-> (0.5 <=? 0.5) = true /\ (0.5 <=? 1.0) = true)
  /\ (snd (get_risk_class 0.5) = lit "#ffc26f"
      <-> fst (get_risk_class 0.5) = lit "Medium").
Proof.
  split; [reflexivity|]. split.
  - exact (proj1 (proj2 (proj2 (C1_risk_bands 0.5) eq_refl))).
  - exact (proj1 (proj2 (proj1 (C1_risk_bands 0.5)))).
Defined.

(** NaN is no depth: both tests of the classifier are false on it, so it
    falls to the last branch and is High, while [nan > 1.0] is false. *)
Lemma nan_is_high_but_not_above_one :
  ~ (fst (get_risk_class nan) = lit "High" <-> (1.0 <? nan) = true).
Proof.
  intros [H _]. specialize (H eq_refl). discriminate H.
Qed.

(** C9.  Every negative depth is classified Low, with colour #50d890. *)
Theorem C9_negative_depth_is_low (d : float) :
  (d <? 0) = true -> get_risk_class d = (lit "Low", lit "#50d890").
Proof.
  intros H. unfold get_risk_class.
  rewrite (FloatFacts.neg_lt_half d H). reflexivity.
Qed.

Lemma C9_negative_depth_is_low_witness :
  (-0.25 <? 0) = true /\ get_risk_class (-0.25) = (lit "Low", lit "#50d890").
Proof.
  split; [reflexivity | apply (C9_negative_depth_is_low (-0.25)); reflexivity].
Defined.

(** C8.  The depths returned by the scenario generator, and the state in
    which it leaves the random source, do not depend on the postal code nor
    on the coordinates. *)
Theorem C8_flood_depth_ignores_location
  (p1 p2 : str) (lat1 lon1 lat2 lon2 : float) (rs : RandomSource) :
  get_flood_depth p1 lat1 lon1 rs = get_flood_depth p2 lat2 lon2 rs.
Proof. reflexivity. Qed.

(** ** Strings and dictionaries *)

Lemma str_eqb_eq (s t : str) : PyStr.eqb s t = true <-> s = t.
Proof.
  revert t. induction s as [|a s IH]; intros [|b t]; cbn [PyStr.eqb];
    try (split; [discriminate | discriminate]); try tauto.
  rewrite andb_true_iff, N.eqb_eq, IH. split.
  - intros [-> ->]. reflexivity.
  - intros E. injection E as -> ->. split; reflexivity.
Qed.

Lemma str_eqb_refl (s : str) : PyStr.eqb s s = true.
Proof. apply str_eqb_eq. reflexivity. Qed.

Lemma str_eqb_neq (s t : str) : PyStr.eqb s t = false <-> s <> t.
Proof.
  rewrite <- str_eqb_eq. destruct (PyStr.eqb s t); split; congruence.
Qed.

Lemma dict_get_in {V} (k : str) (v : V) (d : dict V) :
  NoDup (PyDict.keys d) -> In (k, v) d -> PyDict.get k d = Some v.
Proof.
  induction d as [|[k' v'] d IH]; cbn [PyDict.keys List.map fst PyDict.get In].
  - intros _ [].
  - intros Hnd [E|Hin].
    + injection E as -> ->. rewrite str_eqb_refl. reflexivity.
    + inversion Hnd as [|? ? Hk Hnd']; subst.
      destruct (PyStr.eqb k k') eqn:E.
      * apply str_eqb_eq in E. subst k'. exfalso. apply Hk.
        change k with (fst (k, v)). apply in_map. exact Hin.
      * apply IH; assumption.
Qed.

Lemma dict_get_absent {V} (k : str) (d : dict V) :
  ~ In k (PyDict.keys d) -> PyDict.get k d = None.
Proof.
  induction d as [|[k' v'] d IH]; cbn [PyDict.keys List.map fst PyDict.get In].
  - reflexivity.
  - intros H. destruct (PyStr.eqb k k') eqn:E.
    + apply str_eqb_eq in E. subst k'. exfalso. apply H. left. reflexivity.
    + apply IH. intros Hin. apply H. right. exact Hin.
Qed.

(** ** The table of scenarios and its highlighting *)

Lemma make_flood_table_rows_eq (b f : float) :
  make_flood_table_rows b f
  = [table_row (lit "Baseline") b; table_row (lit "RCP8.5") f].
Proof. reflexivity. Qed.

Lemma table_row_fields (scenario : str) (d : float) :
  Scenario (table_row scenario d) = scenario
  /\ Flood_Depth_m (table_row scenario d) = format_2f d
  /\ Risk_Level (table_row scenario d) = fst (get_risk_class d)
  /\ Color (table_row scenario d) = snd (get_risk_class d).
Proof.
  unfold table_row. destruct (get_risk_class d) as [risk color].
  repeat split.
Qed.

Lemma scenario_names_distinct : lit "Baseline" <> lit "RCP8.5".
Proof. discriminate. Qed.

(** C10.  On a row of the table built from any two depths, the search of
    [highlight_risk] finds a row, and the result is the three styles: two
    empty ones, then the colour of that very row in bold. *)
Theorem C10_highlight_risk_on_own_rows (b f : float) (r : Row) :
  In r (make_flood_table_rows b f) ->
  highlight_risk r (make_flood_table_rows b f)
  = Some [ []; []; lit "color: " ++ Color r ++ lit "; font-weight: bold;" ].
Proof.
  rewrite make_flood_table_rows_eq. intros [<-|[<-|[]]];
    unfold highlight_risk; cbn [find].
  - rewrite str_eqb_refl. reflexivity.
  - destruct (table_row_fields (lit "Baseline") b) as [-> _].
    destruct (table_row_fields (lit "RCP8.5") f) as [-> _].
    replace (PyStr.eqb (lit "Baseline") (lit "RCP8.5")) with false
      by reflexivity.
    rewrite str_eqb_refl. reflexivity.
Qed.

Lemma C10_highlight_risk_on_own_rows_witness :
  In (table_row (lit "RCP8.5") 1.2) (make_flood_table_rows 0.3 1.2)
  /\ highlight_risk (table_row (lit "RCP8.5") 1.2)
       (make_flood_table_rows 0.3 1.2)
     = Some [ []; []; lit "color: #ff595e; font-weight: bold;" ].
Proof.
  split.
  - right. left. reflexivity.
  - apply (C10_highlight_risk_on_own_rows 0.3 1.2
             (table_row (lit "RCP8.5") 1.2)).
    right. left. reflexivity.
Defined.

(** ** Loading and caching *)

Lemma keys_set {V} (k : str) (v : V) (d : dict V) :
  PyDict.keys (PyDict.set k v d)
  = if existsb (PyStr.eqb k) (PyDict.keys d) then PyDict.keys d
    else PyDict.keys d ++ [k].
Proof.
  induction d as [|[k' v'] d IH];
    cbn [PyDict.set PyDict.keys List.map fst existsb app].
  - reflexivity.
  - destruct (PyStr.eqb k k') eqn:E; cbn [List.map fst orb].
    + reflexivity.
    + fold (PyDict.keys (PyDict.set k v d)). rewrite IH.
      fold (PyDict.keys d).
      destruct (existsb (PyStr.eqb k) (PyDict.keys d)); reflexivity.
Qed.

Lemma set_keeps_keys_unique {V} (k : str) (v : V) (d : dict V) :
  NoDup (PyDict.keys d) -> NoDup (PyDict.keys (PyDict.set k v d)).
Proof.
  intros H. rewrite keys_set.
  destruct (existsb (PyStr.eqb k) (PyDict.keys d)) eqn:E; [exact H|].
  apply NoDup_app; [exact H | constructor; [intros [] | constructor] |].
  intros x Hx [Ex|[]]. subst x.
  assert (existsb (PyStr.eqb k) (PyDict.keys d) = true) as C.
  { apply existsb_exists. exists k. split; [exact Hx | apply str_eqb_refl]. }
  congruence.
Qed.

Lemma postal_dict_of_keys_unique (data : list Address) :
  NoDup (PyDict.keys (postal_dict_of data)).
Proof.
  unfold postal_dict_of.
  assert (forall (d : dict Address),
             NoDup (PyDict.keys d) ->
             NoDup (PyDict.keys
                      (fold_left
                         (fun d entry => PyDict.set (POSTAL entry) entry d)
                         data d))) as G.
  { induction data as [|a data IH]; intros d H; cbn [fold_left].
    - exact H.
    - apply IH. apply set_keeps_keys_unique. exact H. }
  apply G. constructor.
Qed.

Lemma assign_flags_keys (d : dict Address) (rs : RandomSource) :
  PyDict.keys (fst (assign_flags d rs)) = PyDict.keys d.
Proof.
  revert rs. induction d as [|[k a] d IH]; intros rs; cbn [assign_flags].
  - reflexivity.
  - cbn [random].
    specialize (IH {| draws := draws rs; position := S (S (position rs)) |}).
    destruct (assign_flags d _) as [d'' rs3].
    cbn [fst PyDict.keys List.map] in *. rewrite IH. reflexivity.
Qed.

(** The store that [load_data] builds has one record per key. *)
Lemma load_data_body_keys_unique (w w' : World) (d : dict Entry) :
  load_data_body w = Some (d, w') -> NoDup (PyDict.keys d).
Proof.
  unfold load_data_body. destruct (database w) as [data|]; [|discriminate].
  pose proof (assign_flags_keys (postal_dict_of data) (rng w)) as K.
  destruct (assign_flags (postal_dict_of data) (rng w)) as [pd rs].
  intros [= <- _]. cbn [fst] in K. rewrite K.
  apply postal_dict_of_keys_unique.
Qed.

Lemma load_data_fills_cache (w w1 : World) (d : dict Entry) :
  load_data w = Some (d, w1) -> cache w1 = Some d.
Proof.
  unfold load_data. destruct (cache w) as [c|] eqn:C.
  - intros [= <- <-]. exact C.
  - destruct (load_data_body w) as [[d' w']|]; [|discriminate].
    intros [= <- <-]. reflexivity.
Qed.

(** C5.  Once [load_data] has returned a mapping, every later call made
    while the cache still holds its entry (no invalidation in between)
    returns that same mapping, flags included, and leaves the world as it
    is: the file is not read and no random number is drawn. *)
Theorem C5_load_data_is_idempotent (w w1 w2 : World) (d : dict Entry) :
  load_data w = Some (d, w1) ->
  cache w2 = cache w1 ->
  load_data w2 = Some (d, w2).
Proof.
  intros H E. apply load_data_fills_cache in H.
  unfold load_data. rewrite E, H. reflexivity.
Qed.

Lemma C5_load_data_is_idempotent_witness :
  exists d w1,
    load_data fresh_world = Some (d, w1)
    /\ PyDict.get (lit "018989") d
       = Some {| fields := sample_address;
                 IS_FLOOD_PRONE := true; IS_FLOOD_HOTSPOT := true |}
    /\ load_data w1 = Some (d, w1).
Proof.
  eexists. eexists. split; [reflexivity|]. split; [reflexivity|].
  eapply (C5_load_data_is_idempotent fresh_world); reflexivity.
Defined.

(** With an invalidation in between, the body runs again and the flags are
    drawn anew: the cache is what makes them stable. *)
Lemma flags_resampled_after_clear :
  exists d1 w1 d2 w2,
    load_data fresh_world = Some (d1, w1)
    /\ load_data (clear_cache w1) = Some (d2, w2)
    /\ option_map IS_FLOOD_PRONE (PyDict.get (lit "018989") d1) = Some true
    /\ option_map IS_FLOOD_PRONE (PyDict.get (lit "018989") d2) = Some false.
Proof.
  do 4 eexists. split; [reflexivity|]. split; [reflexivity|].
  split; reflexivity.
Qed.

(** ** Validation of the postal code *)

Lemma postal_pattern_atoms :
  Re.atoms postal_pattern
  = [Re.Bol; Re.Digit; Re.Digit; Re.Digit; Re.Digit; Re.Digit; Re.Digit;
     Re.Eol].
Proof. reflexivity. Qed.

(** What the pattern accepts: six decimal digits of any script, followed by
    nothing or by one newline. *)
Lemma postal_pattern_accepts (s : str) :
  Re.re_match postal_pattern s = true
  <-> exists digits tail,
        s = digits ++ tail /\ List.length digits = 6%nat
        /\ forallb Re.is_decimal digits = true
        /\ (tail = [] \/ tail = [10%N]).
Proof.
  unfold Re.re_match. rewrite postal_pattern_atoms. split.
  - destruct s as [|c1 [|c2 [|c3 [|c4 [|c5 [|c6 tail]]]]]];
      cbn [Re.match_here andb]; rewrite ?andb_false_r;
      try discriminate.
    rewrite !andb_true_iff.
    intros (D1 & D2 & D3 & D4 & D5 & D6 & T & _).
    exists [c1; c2; c3; c4; c5; c6], tail.
    split; [reflexivity|]. split; [reflexivity|]. split.
    + cbn [forallb]. rewrite D1, D2, D3, D4, D5, D6. reflexivity.
    + destruct tail as [|t [|t' tail]]; cbn [Re.at_end] in T.
      * left. reflexivity.
      * right. apply N.eqb_eq in T. subst t. reflexivity.
      * discriminate T.
  - intros (digits & tail & -> & L & D & T).
    destruct digits as [|c1 [|c2 [|c3 [|c4 [|c5 [|c6 [|c7 more]]]]]]];
      try discriminate L.
    cbn [forallb] in D. rewrite !andb_true_iff in D.
    destruct D as (D1 & D2 & D3 & D4 & D5 & D6 & _).
    cbn [app Re.match_here andb]. rewrite D1, D2, D3, D4, D5, D6.
    destruct T as [-> | ->]; reflexivity.
Qed.

Lemma ascii_digit_is_decimal (c : N) :
  is_ascii_digit c = true -> Re.is_decimal c = true.
Proof.
  unfold is_ascii_digit, Re.is_decimal, Re.digit_decades.
  rewrite andb_true_iff, N.leb_le, N.leb_le. intros [L U].
  cbn [existsb]. apply orb_true_iff. left. apply orb_true_iff. left.
  apply andb_true_iff. split; [apply N.leb_le | apply N.ltb_lt]; lia.
Qed.

(** Every well-formed postal code passes the validation. *)
Lemma well_formed_is_accepted (s : str) :
  well_formed_postal_code s = true ->
  Re.re_match postal_pattern s = true.
Proof.
  unfold well_formed_postal_code. rewrite andb_true_iff, Nat.eqb_eq.
  intros [L D]. apply postal_pattern_accepts.
  exists s, []. rewrite app_nil_r. repeat split; try assumption.
  - rewrite forallb_forall in *. intros c Hc.
    apply ascii_digit_is_decimal. apply D. exact Hc.
  - left. reflexivity.
Qed.

(** The examples of the specification. *)
Lemma validation_examples :
  Re.re_match postal_pattern (lit "12345") = false
  /\ Re.re_match postal_pattern (lit "abcdef") = false
  /\ Re.re_match postal_pattern (lit "1234567") = false
  /\ Re.re_match postal_pattern (lit " 018989") = false
  /\ Re.re_match postal_pattern (lit "018989") = true.
Proof. repeat split; reflexivity. Qed.

(** C3 fails on the code: the six Arabic-Indic digits U+0661 .. U+0666,
    which fit the six characters of the text input, pass the validation
    although none is an ASCII digit, and the run then reports them as not
    found, not as an invalid format; so does a well-formed code followed by a
    newline. *)
Theorem C3_validation_accepts_more_than_ascii_digits :
  Re.re_match postal_pattern [1633; 1634; 1635; 1636; 1637; 1638]%N = true
  /\ well_formed_postal_code [1633; 1634; 1635; 1636; 1637; 1638]%N = false
  /\ option_map fst
       (main fresh_world [1633; 1634; 1635; 1636; 1637; 1638]%N false)
     = Some (Error not_found_message)
  /\ Re.re_match postal_pattern (lit "018989" ++ [10%N]) = true
  /\ well_formed_postal_code (lit "018989" ++ [10%N]) = false.
Proof. repeat split; reflexivity. Qed.

(** ** Lookup *)

(** No run of [main] changes the cached store. *)
Lemma main_keeps_store (w w' : World) (store : dict Entry) (code : str)
  (search : bool) (o : Outcome) :
  cache w = Some store ->
  main w code search = Some (o, w') -> cache w' = Some store.
Proof.
  intros C. unfold main, load_data. rewrite C.
  destruct (truthy code && negb (Re.re_match postal_pattern code));
    [intros [= _ <-]; exact C|].
  match goal with |- context [if ?c then _ else _] => destruct c end.
  - unfold PyDict.contains. destruct (PyDict.get code store) as [entry|].
    + destruct (LATITUDE (fields entry)) as [lat|]; [|discriminate].
      destruct (LONGITUDE (fields entry)) as [lon|]; [|discriminate].
      destruct (get_flood_depth _ _ _ _) as [[b f] rs].
      destruct (ADDRESS (fields entry)); [|discriminate].
      destruct (ROAD_NAME (fields entry)); [|discriminate].
      destruct (BUILDING (fields entry)); [|discriminate].
      intros [= _ <-]. exact C.
    + intros [= _ <-]. exact C.
  - destruct (negb (truthy code)); intros [= _ <-]; exact C.
Qed.

Lemma well_formed_is_truthy (s : str) :
  well_formed_postal_code s = true ->
  truthy s = true /\ List.length s = 6%nat.
Proof.
  unfold well_formed_postal_code. rewrite andb_true_iff, Nat.eqb_eq.
  intros [L _]. split; [|exact L]. destruct s; [discriminate L | reflexivity].
Qed.

(** The two messages of [st.error] differ. *)
Lemma not_found_is_not_invalid_format :
  Error not_found_message <> Error invalid_format_message.
Proof. discriminate. Qed.

(** A run whose input is well formed and whose search is triggered reaches
    the lookup, with the session updated and the store untouched; a record
    found is reported when it is reportable, and the run raises when it is
    not.  (The depths do not depend on the coordinates handed to
    [get_flood_depth].) *)
Lemma main_reaches_lookup (w : World) (store : dict Entry) (code : str)
  (search : bool) :
  cache w = Some store ->
  well_formed_postal_code code = true ->
  search = true \/ or_default (last_search (session_state w)) <> code ->
  main w code search
  = let w2 :=
      set_session w
        {| postal_search := Some code; last_search := Some code |} in
    match PyDict.get code store with
    | Some entry =>
        if reportable entry then
          let res := get_flood_depth code 0 0 (rng w2) in
          Some (Report entry
                  (make_flood_table_rows (fst (fst res)) (snd (fst res)))
                  (IS_FLOOD_PRONE entry) (IS_FLOOD_HOTSPOT entry),
                set_rng w2 (snd res))
        else None
    | None => Some (Error not_found_message, w2)
    end.
Proof.
  intros C WF T. unfold main, load_data. rewrite C.
  rewrite (well_formed_is_accepted code WF).
  destruct (well_formed_is_truthy code WF) as [Tr L].
  rewrite Tr, L. cbn [negb andb last_search Nat.eqb or_default].
  replace (search
           || negb (PyStr.eqb code
                      (or_default (last_search (session_state w)))) && true)
    with true.
  - cbn [andb]. unfold PyDict.contains, reportable.
    destruct (PyDict.get code store) as [entry|]; [|reflexivity].
    destruct (LATITUDE (fields entry)) as [lat|]; [|reflexivity].
    destruct (LONGITUDE (fields entry)) as [lon|]; [|reflexivity].
    destruct (ADDRESS (fields entry)); [|reflexivity].
    destruct (ROAD_NAME (fields entry)); [|reflexivity].
    destruct (BUILDING (fields entry)); reflexivity.
  - symmetry. destruct T as [-> | N]; [reflexivity|].
    apply orb_true_iff. right. rewrite andb_true_r.
    apply negb_true_iff. apply str_eqb_neq. congruence.
Qed.

(** C4.  On a store (a dictionary: one record per key) and a well-formed
    postal code whose search is triggered, by the button or by a code that
    differs from the last one searched.  A record of the store under that
    key is the record that the lookup yields: the run reports it, with its
    own two flags, when the record is reportable ([float] converts its two
    coordinates and it has its three texts), and ends in an exception when
    it is not.  A key absent from the store gives the not-found message,
    which is not the invalid-format message, and leaves the store, the file
    and the random source as they were. *)
Theorem C4_lookup_found_or_not_found (w : World) (store : dict Entry)
  (code : str) (search : bool) :
  cache w = Some store ->
  NoDup (PyDict.keys store) ->
  well_formed_postal_code code = true ->
  search = true \/ or_default (last_search (session_state w)) <> code ->
  (forall r, In (code, r) store ->
     PyDict.contains code store = true
     /\ PyDict.get code store = Some r
     /\ (reportable r = true ->
         exists rows w',
           main w code search
           = Some (Report r rows (IS_FLOOD_PRONE r) (IS_FLOOD_HOTSPOT r), w')
           /\ cache w' = Some store)
     /\ (reportable r = false -> main w code search = None))
  /\ (~ In code (PyDict.keys store) ->
      exists w',
        main w code search = Some (Error not_found_message, w')
        /\ Error not_found_message <> Error invalid_format_message
        /\ cache w' = Some store /\ rng w' = rng w
        /\ database w' = database w).
Proof.
  intros C ND WF T. rewrite (main_reaches_lookup w store code search C WF T).
  split.
  - intros r Hin. pose proof (dict_get_in code r store ND Hin) as G.
    unfold PyDict.contains. rewrite G.
    split; [reflexivity|]. split; [reflexivity|]. split.
    + intros ->. eexists. eexists. split; [reflexivity|]. exact C.
    + intros ->. reflexivity.
  - intros Habs. rewrite (dict_get_absent code store Habs).
    eexists. split; [reflexivity|].
    split; [apply not_found_is_not_invalid_format|].
    repeat split. exact C.
Qed.

Lemma loaded_world_is_loaded :
  load_data fresh_world = Some (loaded_store, loaded_world).
Proof. reflexivity. Qed.

Lemma C4_lookup_found_or_not_found_witness :
  cache loaded_world = Some loaded_store
  /\ well_formed_postal_code (lit "018989") = true
  /\ well_formed_postal_code (lit "999999") = true
  /\ PyDict.get (lit "018989") loaded_store = Some sample_entry
  /\ (exists rows w',
        main loaded_world (lit "018989") true
        = Some (Report sample_entry rows true true, w')
        /\ cache w' = Some loaded_store)
  /\ main unlocated_world (lit "049145") true = None
  /\ (exists w',
        main loaded_world (lit "999999") true
        = Some (Error not_found_message, w')
        /\ Error not_found_message <> Error invalid_format_message
        /\ cache w' = Some loaded_store /\ rng w' = rng loaded_world
        /\ database w' = database loaded_world).
Proof.
  assert (NoDup (PyDict.keys loaded_store)) as ND.
  { constructor; [intros [] | constructor]. }
  assert (NoDup (PyDict.keys [(lit "049145", unlocated_entry)])) as ND'.
  { constructor; [intros [] | constructor]. }
  pose proof (proj1 (C4_lookup_found_or_not_found loaded_world loaded_store
                       (lit "018989") true eq_refl ND eq_refl
                       (or_introl eq_refl))
                sample_entry (or_introl eq_refl)) as (_ & G & R & _).
  split; [reflexivity|]. split; [reflexivity|]. split; [reflexivity|].
  split; [exact G|].
  split; [exact (R eq_refl)|].
  split.
  - exact (proj2 (proj2 (proj2
             (proj1 (C4_lookup_found_or_not_found unlocated_world
                       [(lit "049145", unlocated_entry)]
                       (lit "049145") true eq_refl ND' eq_refl
                       (or_introl eq_refl))
                unlocated_entry (or_introl eq_refl))))
             eq_refl).
  - apply (C4_lookup_found_or_not_found loaded_world loaded_store
             (lit "999999") true eq_refl ND eq_refl (or_introl eq_refl)).
    intros [E|[]]. discriminate E.
Defined.

(** ** Formatting with two decimals *)

Section Format.

Import FloatFacts.

Lemma Prim2SF_infinity : Prim2SF infinity = S754_infinity false.
Proof. vm_compute. reflexivity. Qed.

Lemma is_finite_spec (x : float) :
  is_finite x
  = match Prim2SF x with
    | S754_zero _ | S754_finite _ _ _ => true
    | _ => false
    end.
Proof.
  unfold is_finite, is_infinity.
  rewrite is_nan_spec, FloatAxioms.eqb_spec, abs_spec, Prim2SF_infinity.
  destruct (Prim2SF x) as [s|s| |s m e]; reflexivity.
Qed.

Lemma digits_of_uint (u : Decimal.uint) :
  forallb is_ascii_digit (lit (NilEmpty.string_of_uint u)) = true.
Proof.
  induction u; cbn [NilEmpty.string_of_uint lit list_ascii_of_string
                      List.map forallb];
    try reflexivity; fold (lit (NilEmpty.string_of_uint u));
    rewrite IHu; reflexivity.
Qed.

Lemma decimal_digits (n : Z) :
  truthy (decimal n) = true /\ forallb is_ascii_digit (decimal n) = true.
Proof.
  unfold decimal, NilZero.string_of_uint.
  destruct (N.to_uint (Z.to_N n)) eqn:E;
    try (split; [reflexivity | rewrite <- E at 1; rewrite E;
                                apply digits_of_uint]).
  split; reflexivity.
Qed.

Lemma digit_char_digit (d : Z) :
  (0 <= d < 10)%Z -> is_ascii_digit (digit_char d) = true.
Proof.
  intros H. unfold is_ascii_digit, digit_char.
  apply andb_true_iff. split; apply N.leb_le; lia.
Qed.

Lemma two_decimal_places_intro (s : bool) (int_part : str) (d1 d2 : N) :
  truthy int_part = true ->
  forallb is_ascii_digit int_part = true ->
  is_ascii_digit d1 = true -> is_ascii_digit d2 = true ->
  two_decimal_places (sign_str s ++ int_part ++ lit "." ++ [d1; d2]) = true.
Proof.
  intros T D H1 H2. unfold two_decimal_places.
  rewrite !rev_app_distr. cbn [rev lit list_ascii_of_string List.map app].
  rewrite H1, H2. cbn [andb]. rewrite rev_app_distr, !rev_involutive.
  replace (N_of_ascii "." =? 46)%N with true by reflexivity. cbn [andb].
  destruct int_part as [|c t]; [discriminate T|].
  cbn [forallb] in D. apply andb_true_iff in D. destruct D as [Dc Dt].
  destruct s; cbn [sign_str lit list_ascii_of_string List.map app].
  - replace (N_of_ascii "-") with 45%N by reflexivity.
    cbn [truthy forallb]. rewrite Dc, Dt. reflexivity.
  - destruct c as [|p]; [discriminate Dc|].
    repeat match goal with
           | |- context [match ?q with xI _ => _ | xO _ => _ | xH => _ end] =>
               is_var q; destruct q
           end;
      cbn [truthy forallb]; try (rewrite Dc, Dt; reflexivity);
      discriminate Dc.
Qed.

(** A finite float is printed with exactly two decimal places. *)
Lemma format_2f_two_decimal_places (d : float) :
  is_finite d = true -> two_decimal_places (format_2f d) = true.
Proof.
  rewrite is_finite_spec. unfold format_2f.
  destruct (Prim2SF d) as [s|s| |s m e]; try discriminate; intros _.
  - destruct s; reflexivity.
  - apply two_decimal_places_intro;
      try apply decimal_digits; apply digit_char_digit;
      apply Z.mod_pos_bound; lia.
Qed.

End Format.

(** The rounding of [format_2f] is to a nearest integer. *)
Lemma div_half_even_nearest (n d : Z) :
  (0 < d)%Z -> (2 * Z.abs (n - d * div_half_even n d) <= d)%Z.
Proof.
  intros Hd. unfold div_half_even.
  pose proof (Z.div_mod n d ltac:(lia)) as E.
  pose proof (Z.mod_pos_bound n d Hd) as B.
  destruct (2 * (n mod d) <? d)%Z eqn:L1; [apply Z.ltb_lt in L1; nia|].
  apply Z.ltb_ge in L1.
  destruct (d <? 2 * (n mod d))%Z eqn:L2; [apply Z.ltb_lt in L2; nia|].
  apply Z.ltb_ge in L2. destruct (Z.even (n / d)); nia.
Qed.

(** A float that is not finite is printed without decimals. *)
Lemma format_2f_not_finite (d : float) :
  is_finite d = false ->
  In (format_2f d) [lit "inf"; lit "-inf"; lit "nan"].
Proof.
  rewrite is_finite_spec. unfold format_2f.
  destruct (Prim2SF d) as [s|s| |s m e]; try discriminate; intros _.
  - destruct s; [right; left | left]; reflexivity.
  - right. right. left. reflexivity.
Qed.

(** C2 (amended).  For every pair of depths the table has exactly two rows,
    Baseline from the first depth and then RCP8.5 from the second; each row
    carries the level and colour that the classifier gives for its depth,
    and its depth printed by the format .2f: with exactly two decimal
    places when that depth is finite, and as inf, -inf or nan when it is
    not. *)
Theorem C2_two_scenario_rows (b f : float) :
  exists r1 r2,
    make_flood_table_rows b f = [r1; r2]
    /\ Scenario r1 = lit "Baseline" /\ Scenario r2 = lit "RCP8.5"
    /\ Flood_Depth_m r1 = format_2f b
    /\ Flood_Depth_m r2 = format_2f f
    /\ (Risk_Level r1, Color r1) = get_risk_class b
    /\ (Risk_Level r2, Color r2) = get_risk_class f
    /\ (is_finite b = true -> two_decimal_places (Flood_Depth_m r1) = true)
    /\ (is_finite f = true -> two_decimal_places (Flood_Depth_m r2) = true)
    /\ (is_finite b = false ->
        In (Flood_Depth_m r1) [lit "inf"; lit "-inf"; lit "nan"])
    /\ (is_finite f = false ->
        In (Flood_Depth_m r2) [lit "inf"; lit "-inf"; lit "nan"]).
Proof.
  exists (table_row (lit "Baseline") b), (table_row (lit "RCP8.5") f).
  destruct (table_row_fields (lit "Baseline") b) as (S1 & D1 & R1 & C1).
  destruct (table_row_fields (lit "RCP8.5") f) as (S2 & D2 & R2 & C2).
  rewrite S1, S2, D1, D2, R1, R2, C1, C2.
  rewrite <- !surjective_pairing.
  split; [reflexivity|]. split; [reflexivity|]. split; [reflexivity|].
  split; [reflexivity|]. split; [reflexivity|]. split; [reflexivity|].
  split; [reflexivity|].
  split; [apply format_2f_two_decimal_places|].
  split; [apply format_2f_two_decimal_places|].
  split; apply format_2f_not_finite.
Qed.

Lemma C2_two_scenario_rows_witness :
  is_finite 0.5 = true /\ is_finite infinity = false
  /\ format_2f 0.5 = lit "0.50"
  /\ exists r1 r2,
       make_flood_table_rows 0.5 infinity = [r1; r2]
       /\ Scenario r1 = lit "Baseline" /\ Scenario r2 = lit "RCP8.5"
       /\ Flood_Depth_m r1 = format_2f 0.5
       /\ two_decimal_places (Flood_Depth_m r1) = true
       /\ In (Flood_Depth_m r2) [lit "inf"; lit "-inf"; lit "nan"]
       /\ (Risk_Level r1, Color r1) = get_risk_class 0.5
       /\ (Risk_Level r2, Color r2) = get_risk_class infinity.
Proof.
  split; [reflexivity|]. split; [reflexivity|].
  split; [vm_compute; reflexivity|].
  destruct (C2_two_scenario_rows 0.5 infinity)
    as (r1 & r2 & E & S1 & S2 & D1 & D2 & R1 & R2 & T1 & _ & _ & N2).
  exists r1, r2.
  split; [exact E|]. split; [exact S1|]. split; [exact S2|].
  split; [exact D1|]. split; [exact (T1 eq_refl)|].
  split; [exact (N2 eq_refl)|]. split; [exact R1 | exact R2].
Defined.

(** C2 as stated fails on an infinite depth: it is printed [inf], which has
    no decimal places. *)
Lemma C2_infinite_depth_has_no_decimals :
  ~ (forall r, In r (make_flood_table_rows infinity 0.5) ->
               two_decimal_places (Flood_Depth_m r) = true).
Proof.
  intros H.
  specialize (H (table_row (lit "Baseline") infinity) (or_introl eq_refl)).
  vm_compute in H. discriminate H.
Qed.

(** ** The text colour *)

Section TextColor.

(** The floating-point test agrees with the exact one on every colour,
    but for (218, 58, 248): by evaluation on the 256^3 colours. *)
Lemma all_colors_agree :
  forallb
    (fun i =>
       forallb
         (fun j => forallb (agrees_with_exact i j) channel_values)
         channel_values)
    channel_values = true.
Proof. vm_compute. reflexivity. Qed.

Lemma agrees_on_channel_values (i j k : int) :
  In i channel_values -> In j channel_values -> In k channel_values ->
  agrees_with_exact i j k = true.
Proof.
  intros Hi Hj Hk.
  pose proof
    (proj1
       (forallb_forall
          (fun i =>
             forallb
               (fun j => forallb (agrees_with_exact i j) channel_values)
               channel_values)
          channel_values) all_colors_agree i Hi) as B.
  cbv beta in B.
  pose proof (proj1 (forallb_forall _ _) B j Hj) as C. cbv beta in C.
  exact (proj1 (forallb_forall _ _) C k Hk).
Qed.

Lemma channel_values_eq :
  channel_values
  = List.map (fun n => Uint63.of_Z (Z.of_nat n)) (seq 0 256).
Proof. vm_compute. reflexivity. Qed.

Lemma channel_value_listed (z : Z) :
  (0 <= z < 256)%Z -> In (Uint63.of_Z z) channel_values.
Proof.
  intros H. rewrite channel_values_eq.
  replace z with (Z.of_nat (Z.to_nat z)) by lia.
  apply (in_map (fun n => Uint63.of_Z (Z.of_nat n))). apply in_seq. lia.
Qed.

Lemma of_Z_small (z : Z) :
  (0 <= z < 256)%Z -> Uint63.to_Z (Uint63.of_Z z) = z.
Proof.
  intros H. rewrite Uint63.of_Z_spec. apply Z.mod_small.
  change wB with 9223372036854775808%Z. lia.
Qed.

Lemma weighted_sum_int (r g b : Z) :
  (0 <= r < 256)%Z -> (0 <= g < 256)%Z -> (0 <= b < 256)%Z ->
  Uint63.to_Z
    (299 * Uint63.of_Z r + 587 * Uint63.of_Z g + 114 * Uint63.of_Z b)%uint63
  = (299 * r + 587 * g + 114 * b)%Z.
Proof.
  intros Hr Hg Hb.
  rewrite !Uint63.add_spec, !Uint63.mul_spec, !of_Z_small by assumption.
  change (Uint63.to_Z 299) with 299%Z. change (Uint63.to_Z 587) with 587%Z.
  change (Uint63.to_Z 114) with 114%Z.
  change wB with 9223372036854775808%Z.
  rewrite (Z.mod_small (299 * r)), (Z.mod_small (587 * g)),
    (Z.mod_small (114 * b)) by lia.
  rewrite (Z.mod_small (299 * r + 587 * g)) by lia.
  apply Z.mod_small. lia.
Qed.

Lemma int_test_is_exact_test (r g b : Z) :
  (0 <= r < 256)%Z -> (0 <= g < 256)%Z -> (0 <= b < 256)%Z ->
  (127500 <? 299 * Uint63.of_Z r + 587 * Uint63.of_Z g
             + 114 * Uint63.of_Z b)%uint63
  = (127500 <? 299 * r + 587 * g + 114 * b)%Z.
Proof.
  intros Hr Hg Hb.
  pose proof (weighted_sum_int r g b Hr Hg Hb) as W.
  destruct (Uint63.ltbP 127500
              (299 * Uint63.of_Z r + 587 * Uint63.of_Z g
               + 114 * Uint63.of_Z b))
    as [L|L]; rewrite W in L; change (Uint63.to_Z 127500) with 127500%Z in L;
    symmetry; [apply Z.ltb_lt | apply Z.ltb_ge]; lia.
Qed.

Lemma int_is_set_apart (r g b : Z) :
  (0 <= r < 256)%Z -> (0 <= g < 256)%Z -> (0 <= b < 256)%Z ->
  ((Uint63.of_Z r =? 218) && (Uint63.of_Z g =? 58)
   && (Uint63.of_Z b =? 248))%uint63 = true ->
  (r, g, b) = (218, 58, 248)%Z.
Proof.
  intros Hr Hg Hb A. rewrite !andb_true_iff in A. destruct A as [[A1 A2] A3].
  apply Uint63.eqb_spec in A1, A2, A3.
  apply (f_equal Uint63.to_Z) in A1, A2, A3.
  rewrite of_Z_small in A1, A2, A3 by assumption.
  change (Uint63.to_Z 218) with 218%Z in A1.
  change (Uint63.to_Z 58) with 58%Z in A2.
  change (Uint63.to_Z 248) with 248%Z in A3. congruence.
Qed.

Lemma float_test_is_exact_test (r g b : Z) :
  (0 <= r < 256)%Z -> (0 <= g < 256)%Z -> (0 <= b < 256)%Z ->
  (r, g, b) <> (218, 58, 248)%Z ->
  (0.5 <? luminance_of r g b)
  = (127500 <? 299 * r + 587 * g + 114 * b)%Z.
Proof.
  intros Hr Hg Hb Hne.
  pose proof (agrees_on_channel_values _ _ _ (channel_value_listed r Hr)
                (channel_value_listed g Hg) (channel_value_listed b Hb)) as A.
  unfold agrees_with_exact in A. apply orb_true_iff in A.
  destruct A as [A|A].
  - exfalso. apply Hne. apply int_is_set_apart; assumption.
  - apply Bool.eqb_prop in A.
    rewrite <- (int_test_is_exact_test r g b Hr Hg Hb). exact A.
Qed.

Lemma exact_above_half (r g b : Z) :
  (1 # 2 < luminance_exact r g b)%Q
  <-> (127500 < 299 * r + 587 * g + 114 * b)%Z.
Proof.
  unfold luminance_exact, Qlt, Qdiv, Qmult, Qplus, Qinv, inject_Z.
  cbn [Qnum Qden]. rewrite !Pos2Z.inj_mul. lia.
Qed.

Lemma hex_value_bound (c : N) : (0 <= hex_value c < 16)%Z.
Proof.
  unfold hex_value, hex_digit.
  destruct ((48 <=? c) && (c <=? 57))%N eqn:E1.
  - apply andb_true_iff in E1. rewrite !N.leb_le in E1. lia.
  - destruct ((97 <=? c) && (c <=? 102))%N eqn:E2.
    + apply andb_true_iff in E2. rewrite !N.leb_le in E2. lia.
    + destruct ((65 <=? c) && (c <=? 70))%N eqn:E3; [|lia].
      apply andb_true_iff in E3. rewrite !N.leb_le in E3. lia.
Qed.

Lemma channel_bound (hi lo : N) : (0 <= channel hi lo < 256)%Z.
Proof.
  unfold channel. pose proof (hex_value_bound hi).
  pose proof (hex_value_bound lo). lia.
Qed.

Lemma int16_two_digits (hi lo : N) :
  is_hex_digit hi = true -> is_hex_digit lo = true ->
  int16 [hi; lo] = Some (channel hi lo).
Proof.
  unfold is_hex_digit, channel, hex_value, int16. cbn [int16_digits].
  destruct (hex_digit hi) as [a|]; [|discriminate].
  destruct (hex_digit lo) as [b|]; [|discriminate].
  intros _ _; f_equal; lia.
Qed.

End TextColor.

(** C7 (amended).  For every colour written '#' and six hexadecimal digits,
    the helper returns black when the luminance
    [(0.299*R + 0.587*G + 0.114*B)/255], evaluated in binary64 arithmetic
    in the order written, is above 0.5, and white otherwise.  That test
    agrees with the exact value of the formula on every colour but
    (218, 58, 248), which is #da3af8. *)
Theorem C7_text_color_by_luminance (h1 h2 h3 h4 h5 h6 : N) :
  forallb is_hex_digit [h1; h2; h3; h4; h5; h6] = true ->
  let r := channel h1 h2 in
  let g := channel h3 h4 in
  let b := channel h5 h6 in
  get_text_color (lit "#" ++ [h1; h2; h3; h4; h5; h6])
  = Some (if 0.5 <? luminance_of r g b then lit "black" else lit "white")
  /\ (0 <= r < 256 /\ 0 <= g < 256 /\ 0 <= b < 256)%Z
  /\ ((r, g, b) <> (218, 58, 248)%Z ->
      ((0.5 <? luminance_of r g b) = true
       <-> (1 # 2 < luminance_exact r g b)%Q)).
Proof.
  intros H r g b. cbn [forallb] in H. rewrite !andb_true_iff in H.
  destruct H as (H1 & H2 & H3 & H4 & H5 & H6 & _).
  pose proof (channel_bound h1 h2) as Br.
  pose proof (channel_bound h3 h4) as Bg.
  pose proof (channel_bound h5 h6) as Bb.
  split; [|split; [repeat split; lia|]].
  - unfold get_text_color.
    change (slice 1 3 (lit "#" ++ [h1; h2; h3; h4; h5; h6])) with [h1; h2].
    change (slice 3 5 (lit "#" ++ [h1; h2; h3; h4; h5; h6])) with [h3; h4].
    change (slice 5 7 (lit "#" ++ [h1; h2; h3; h4; h5; h6])) with [h5; h6].
    rewrite !int16_two_digits by assumption. reflexivity.
  - intros Hne. rewrite exact_above_half.
    rewrite (float_test_is_exact_test r g b Br Bg Bb Hne).
    apply Z.ltb_lt.
Qed.

Lemma C7_text_color_by_luminance_witness :
  forallb is_hex_digit (lit "50d890") = true
  /\ get_text_color (lit "#50d890") = Some (lit "black")
  /\ (1 # 2 < luminance_exact 80 216 144)%Q.
Proof.
  pose proof (C7_text_color_by_luminance 53 48 100 56 57 48 eq_refl) as H.
  cbv zeta in H. destruct H as (H1 & _ & H2).
  split; [reflexivity|]. split; [exact H1|].
  apply H2; [discriminate | reflexivity].
Defined.

(** The two colours named by the specification: the floating-point test and
    the exact value of the formula give the same answer, black, for both. *)
Lemma named_colors_follow_the_formula :
  get_text_color (lit "#50d890") = Some (lit "black")
  /\ (1 # 2 < luminance_exact 80 216 144)%Q
  /\ get_text_color (lit "#ff595e") = Some (lit "black")
  /\ (1 # 2 < luminance_exact 255 89 94)%Q.
Proof.
  repeat split; try reflexivity; apply exact_above_half; lia.
Qed.

(** C7 read with the exact value of the formula fails on #da3af8: the
    luminance is exactly 1/2, not above it, so the claim gives white; the
    three products are rounded in binary64, their sum comes out as
    127.50000000000001 and the quotient as 0.5000000000000001, and the
    helper returns black. *)
Lemma C7_da3af8_is_black_at_exact_half :
  ~ (~ (1 # 2 < luminance_exact 218 58 248)%Q ->
     get_text_color (lit "#da3af8") = Some (lit "white")).
Proof.
  intros H.
  assert (~ (1 # 2 < luminance_exact 218 58 248)%Q) as E.
  { rewrite exact_above_half. lia. }
  specialize (H E). vm_compute in H. discriminate H.
Qed.

(** ** The scenario generator *)

(** The shape of a float in [0, 1). *)
Lemma unit_interval_shape (u : float) :
  (0 <=? u) = true -> (u <? 1.0) = true ->
  (exists s, Prim2SF u = S754_zero s)
  \/ exists m e,
       Prim2SF u = S754_finite false m e
       /\ canonical_mantissa 53 1024 m e = true /\ (e <= -53)%Z.
Proof.
  rewrite FloatAxioms.leb_spec, FloatAxioms.ltb_spec.
  rewrite FloatFacts.Prim2SF_zero, FloatFacts.Prim2SF_one.
  pose proof (Prim2SF_valid u) as V.
  destruct (Prim2SF u) as [s|s| |s m e]; unfold SFleb, SFltb, SFcompare.
  - intros _ _. left. exists s. reflexivity.
  - destruct s; discriminate.
  - discriminate.
  - destruct s; [discriminate|]. intros _ H. right. exists m, e.
    cbn [valid_binary] in V. unfold bounded in V.
    apply andb_true_iff in V. destruct V as [C _].
    split; [reflexivity|]. split; [exact C|].
    destruct (Z.compare e (-52)) eqn:E.
    + apply Z.compare_eq_iff in E. subst e. exfalso.
      rewrite FloatFacts.compare_cont_Eq in H.
      destruct (Pos.compare m 4503599627370496) eqn:Em;
        try discriminate H.
      apply Pos.compare_lt_iff in Em. apply Pos2Z.pos_lt_pos in Em.
      unfold canonical_mantissa in C. rewrite RoundingFacts.fexp64 in C.
      apply Z.eqb_eq in C.
      pose proof (RoundingFacts.digits2_bounds m) as [Dl _].
      assert (Z.pos (digits2_pos m) = 53%Z) as D by lia.
      rewrite D in Dl. change (2 ^ (53 - 1))%Z with 4503599627370496%Z in Dl.
      lia.
    + change (e < -52)%Z in E. lia.
    + discriminate H.
Qed.

Lemma uniform_0_1_5_bounds (u : float) :
  (0 <=? u) = true -> (u <? 1.0) = true ->
  (0 <=? 0 + (1.5 - 0) * u) = true /\ (0 + (1.5 - 0) * u <=? 1.5) = true.
Proof.
  intros H0 H1. change (1.5 - 0) with 1.5.
  rewrite !FloatAxioms.leb_spec, FloatAxioms.add_spec, FloatAxioms.mul_spec.
  rewrite FloatFacts.Prim2SF_zero, FloatFacts.Prim2SF_1_5.
  destruct (unit_interval_shape u H0 H1) as [[s ->]|(m & e & -> & C & He)].
  - destruct s; split; reflexivity.
  - unfold SF64mul, SFmul, prec, emax. cbn [xorb].
    destruct (RoundingFacts.round_product_bound m e C He)
      as [Y|(m' & e' & Y & B)];
      cbv zeta in Y; rewrite Y.
    + split; reflexivity.
    + unfold SF64add, SFadd, SFleb, SFcompare. split; [reflexivity|].
      destruct B as [B|[-> B]].
      * apply Z.compare_lt_iff in B. rewrite B. reflexivity.
      * rewrite Z.compare_refl.
        rewrite FloatFacts.compare_cont_Eq.
        destruct (Pos.compare m' 6755399441055744) eqn:Em; try reflexivity.
        apply Pos.compare_gt_iff in Em. apply Pos2Z.pos_lt_pos in Em.
        lia.
Qed.

(** C6.  When the draws of the random source lie in [0, 1), as those of
    [random.random()] do, both depths returned by the scenario generator
    lie in [0, 1.5]; in particular they are not negative. *)
Theorem C6_flood_depths_in_range (postal_code : str) (lat lon : float)
  (rs : RandomSource) :
  (forall n, in_unit_interval (draws rs n) = true) ->
  let depths := fst (get_flood_depth postal_code lat lon rs) in
  (0 <=? fst depths) = true /\ (fst depths <=? 1.5) = true
  /\ (0 <=? snd depths) = true /\ (snd depths <=? 1.5) = true.
Proof.
  intros H. unfold get_flood_depth, uniform, random.
  cbn [fst snd draws position].
  pose proof (H (position rs)) as H1. pose proof (H (S (position rs))) as H2.
  unfold in_unit_interval in H1, H2.
  apply andb_true_iff in H1, H2.
  destruct H1 as [A1 B1]. destruct H2 as [A2 B2].
  destruct (uniform_0_1_5_bounds _ A1 B1) as [L1 U1].
  destruct (uniform_0_1_5_bounds _ A2 B2) as [L2 U2].
  repeat split; assumption.
Qed.

Lemma C6_flood_depths_in_range_witness :
  (forall n, in_unit_interval (draws sample_source n) = true)
  /\ (0 <=? fst (fst (get_flood_depth (lit "018989") 1.28 103.85
                        sample_source))) = true
  /\ (snd (fst (get_flood_depth (lit "018989") 1.28 103.85 sample_source))
      <=? 1.5) = true.
Proof.
  assert (forall n, in_unit_interval (draws sample_source n) = true) as H.
  { intros n. cbn [draws sample_source]. destruct (n <? 2)%nat; reflexivity. }
  split; [exact H|].
  pose proof (C6_flood_depths_in_range (lit "018989") 1.28 103.85
                sample_source H) as B.
  cbv zeta in B. destruct B as (B1 & _ & _ & B4). split; assumption.
Defined.

(** * Further properties *)

(** ** The store built by [load_data] *)

Lemma get_set {V} (k k' : str) (v : V) (d : dict V) :
  PyDict.get k (PyDict.set k' v d)
  = if PyStr.eqb k k' then Some v else PyDict.get k d.
Proof.
  induction d as [|[k0 v0] d IH]; cbn [PyDict.set PyDict.get].
  - destruct (PyStr.eqb k k'); reflexivity.
  - destruct (PyStr.eqb k' k0) eqn:E0; cbn [PyDict.get].
    + apply str_eqb_eq in E0. subst k0.
      destruct (PyStr.eqb k k'); reflexivity.
    + rewrite IH. destruct (PyStr.eqb k k0) eqn:E1; [|reflexivity].
      apply str_eqb_eq in E1. subst k0.
      destruct (PyStr.eqb k k') eqn:E2; [|reflexivity].
      apply str_eqb_eq in E2. subst k'. rewrite str_eqb_refl in E0.
      discriminate E0.
Qed.

Lemma find_app_first {A} (f : A -> bool) (l l' : list A) :
  find f (l ++ l')
  = match find f l with Some x => Some x | None => find f l' end.
Proof.
  induction l as [|x l IH]; cbn [app find]; [reflexivity|].
  destruct (f x); [reflexivity | exact IH].
Qed.

Lemma get_fold_set (k : str) (data : list Address) (d0 : dict Address) :
  PyDict.get k
    (fold_left (fun d entry => PyDict.set (POSTAL entry) entry d) data d0)
  = match find (fun a => PyStr.eqb k (POSTAL a)) (rev data) with
    | Some a => Some a
    | None => PyDict.get k d0
    end.
Proof.
  revert d0.
  induction data as [|a data IH]; intros d0; cbn [fold_left rev find].
  - reflexivity.
  - rewrite IH, find_app_first.
    destruct (find (fun a0 => PyStr.eqb k (POSTAL a0)) (rev data));
      [reflexivity|].
    cbn [find]. rewrite get_set.
    destruct (PyStr.eqb k (POSTAL a)); reflexivity.
Qed.

Lemma get_postal_dict_of (k : str) (data : list Address) :
  PyDict.get k (postal_dict_of data)
  = find (fun a => PyStr.eqb k (POSTAL a)) (rev data).
Proof.
  unfold postal_dict_of. rewrite get_fold_set.
  destruct (find _ (rev data)); reflexivity.
Qed.

Lemma get_assign_flags (k : str) (d : dict Address) (rs : RandomSource) :
  option_map fields (PyDict.get k (fst (assign_flags d rs))) = PyDict.get k d.
Proof.
  revert rs. induction d as [|[k0 a] d IH]; intros rs; cbn [assign_flags].
  - reflexivity.
  - cbn [random].
    specialize (IH {| draws := draws rs; position := S (S (position rs)) |}).
    destruct (assign_flags d _) as [d'' rs3]. cbn [fst PyDict.get] in *.
    destruct (PyStr.eqb k k0); [reflexivity | exact IH].
Qed.

Lemma assign_flags_source (d : dict Address) (rs : RandomSource) :
  snd (assign_flags d rs)
  = {| draws := draws rs;
       position := position rs + 2 * List.length d |}.
Proof.
  revert rs. induction d as [|[k a] d IH]; intros rs; cbn [assign_flags].
  - destruct rs as [dr p]. cbn [snd draws position List.length].
    f_equal. lia.
  - cbn [random].
    specialize (IH {| draws := draws rs; position := S (S (position rs)) |}).
    destruct (assign_flags d _) as [d'' rs3]. cbn [snd draws position] in *.
    rewrite IH. cbn [List.length]. f_equal. lia.
Qed.

Lemma assign_flags_nth (d : dict Address) (rs : RandomSource) (i : nat)
  (k : str) (e : Entry) :
  nth_error (fst (assign_flags d rs)) i = Some (k, e) ->
  nth_error d i = Some (k, fields e)
  /\ IS_FLOOD_PRONE e = (draws rs (position rs + 2 * i) <? 0.15)
  /\ IS_FLOOD_HOTSPOT e = (draws rs (position rs + 2 * i + 1) <? 0.10).
Proof.
  revert rs i. induction d as [|[k0 a] d IH]; intros rs i; cbn [assign_flags].
  - destruct i; discriminate.
  - cbn [random].
    specialize (IH {| draws := draws rs; position := S (S (position rs)) |}).
    destruct (assign_flags d _) as [d'' rs3]. cbn [fst draws position] in *.
    destruct i as [|i]; cbn [nth_error].
    + intros [= <- <-]. cbn [fields IS_FLOOD_PRONE IS_FLOOD_HOTSPOT].
      replace (position rs + 2 * 0)%nat with (position rs) by lia.
      replace (position rs + 1)%nat with (S (position rs)) by lia.
      repeat split.
    + intros H. destruct (IH i H) as (H1 & H2 & H3).
      replace (position rs + 2 * S i)%nat
        with (S (S (position rs)) + 2 * i)%nat by lia.
      repeat split; assumption.
Qed.

Lemma get_present {V} (k : str) (d : dict V) :
  In k (PyDict.keys d) -> exists v, PyDict.get k d = Some v /\ In (k, v) d.
Proof.
  induction d as [|[k0 v0] d IH]; cbn [PyDict.keys List.map fst In PyDict.get].
  - intros [].
  - intros H. destruct (PyStr.eqb k k0) eqn:E.
    + apply str_eqb_eq in E. subst k0. exists v0. split; [reflexivity|].
      left. reflexivity.
    + destruct H as [H|H];
        [subst k0; rewrite str_eqb_refl in E; discriminate E|].
      destruct (IH H) as (v & G & I). exists v.
      split; [exact G|]. right. exact I.
Qed.

Lemma assign_flags_length (d : dict Address) (rs : RandomSource) :
  List.length (fst (assign_flags d rs)) = List.length d.
Proof.
  rewrite <- (length_map fst (fst (assign_flags d rs))), <- (length_map fst d).
  f_equal. apply assign_flags_keys.
Qed.

(** A load on a cache miss, spelled out. *)
Lemma load_data_miss (w w' : World) (data : list Address)
  (store : dict Entry) :
  cache w = None -> database w = Some data ->
  load_data w = Some (store, w') ->
  store = fst (assign_flags (postal_dict_of data) (rng w))
  /\ w' = set_cache
            (set_rng w (snd (assign_flags (postal_dict_of data) (rng w))))
            (Some store).
Proof.
  intros C D. unfold load_data, load_data_body. rewrite C, D.
  destruct (assign_flags (postal_dict_of data) (rng w)) as [pd rs].
  intros [= <- <-]. split; reflexivity.
Qed.

(** X1.  In the store that [load_data] builds from the file, a postal code
    leads to the last object of the file that carries it (a later duplicate
    replaces an earlier one), and to nothing when no object carries it. *)
Theorem X1_loaded_store_lookup (w w' : World) (data : list Address)
  (store : dict Entry) (k : str) :
  cache w = None -> database w = Some data ->
  load_data w = Some (store, w') ->
  option_map fields (PyDict.get k store)
  = find (fun a => PyStr.eqb k (POSTAL a)) (rev data).
Proof.
  intros C D L. destruct (load_data_miss w w' data store C D L) as [-> _].
  rewrite get_assign_flags. apply get_postal_dict_of.
Qed.

Lemma X1_loaded_store_lookup_witness :
  exists store w',
    load_data duplicate_world = Some (store, w')
    /\ option_map fields (PyDict.get (lit "018989") store)
       = Some sample_address_2.
Proof.
  eexists. eexists. split; [reflexivity|].
  exact (X1_loaded_store_lookup duplicate_world _ _ _ (lit "018989")
           eq_refl eq_refl eq_refl).
Defined.

(** X2.  The store that [load_data] builds has one record per key, its keys
    are exactly the postal codes that occur in the file, and every record
    sits under its own postal code. *)
Theorem X2_loaded_store_keys (w w' : World) (data : list Address)
  (store : dict Entry) :
  cache w = None -> database w = Some data ->
  load_data w = Some (store, w') ->
  NoDup (PyDict.keys store)
  /\ (forall k, In k (PyDict.keys store)
                <-> exists a, In a data /\ POSTAL a = k)
  /\ (forall k e, In (k, e) store -> POSTAL (fields e) = k).
Proof.
  intros C D L.
  assert (NoDup (PyDict.keys store)) as ND.
  { destruct (load_data_miss w w' data store C D L) as [-> _].
    rewrite assign_flags_keys. apply postal_dict_of_keys_unique. }
  assert (forall k, option_map fields (PyDict.get k store)
                    = find (fun a => PyStr.eqb k (POSTAL a)) (rev data)) as G.
  { intros k. destruct (load_data_miss w w' data store C D L) as [-> _].
    rewrite get_assign_flags. apply get_postal_dict_of. }
  split; [exact ND|]. split.
  - intros k. split.
    + intros H. destruct (get_present k store H) as (e & Ge & _).
      specialize (G k). rewrite Ge in G. cbn [option_map] in G.
      symmetry in G. apply find_some in G. destruct G as [I E].
      exists (fields e). split; [apply in_rev; exact I|].
      apply str_eqb_eq in E. symmetry. exact E.
    + intros (a & I & E). subst k.
      destruct (in_dec (list_eq_dec N.eq_dec) (POSTAL a) (PyDict.keys store))
        as [Y|Nn]; [exact Y|exfalso].
      specialize (G (POSTAL a)). rewrite (dict_get_absent _ _ Nn) in G.
      cbn [option_map] in G. symmetry in G.
      apply in_rev in I. pose proof (find_none _ _ G a I) as F.
      cbv beta in F. rewrite str_eqb_refl in F. discriminate F.
  - intros k e I. specialize (G k).
    rewrite (dict_get_in k e store ND I) in G. cbn [option_map] in G.
    symmetry in G. apply find_some in G. destruct G as [_ E].
    apply str_eqb_eq in E. symmetry. exact E.
Qed.

Lemma X2_loaded_store_keys_witness :
  exists store w',
    load_data duplicate_world = Some (store, w')
    /\ NoDup (PyDict.keys store)
    /\ PyDict.keys store = [lit "018989"].
Proof.
  eexists. eexists. split; [reflexivity|]. split; [|reflexivity].
  exact (proj1 (X2_loaded_store_keys duplicate_world _ _ _
                  eq_refl eq_refl eq_refl)).
Defined.

(** X3.  A load draws exactly two random numbers per record of the store,
    in the order of the store: the record at index [i] is flood-prone iff
    draw [2i] (counted from the state before the load) is below 0.15, and a
    hotspot iff draw [2i+1] is below 0.10. *)
Theorem X3_load_draws (w w' : World) (data : list Address)
  (store : dict Entry) :
  cache w = None -> database w = Some data ->
  load_data w = Some (store, w') ->
  rng w' = {| draws := draws (rng w);
              position := position (rng w) + 2 * List.length store |}
  /\ forall i k e,
       nth_error store i = Some (k, e) ->
       IS_FLOOD_PRONE e
       = (draws (rng w) (position (rng w) + 2 * i) <? 0.15)
       /\ IS_FLOOD_HOTSPOT e
          = (draws (rng w) (position (rng w) + 2 * i + 1) <? 0.10).
Proof.
  intros C D L. destruct (load_data_miss w w' data store C D L) as [-> ->].
  split.
  - cbn [rng set_cache set_rng].
    rewrite assign_flags_source, assign_flags_length. reflexivity.
  - intros i k e H. apply (assign_flags_nth _ _ _ _ _ H).
Qed.

Lemma X3_load_draws_witness :
  exists store w',
    load_data duplicate_world = Some (store, w')
    /\ position (rng w') = 2%nat.
Proof.
  eexists. eexists. split; [reflexivity|].
  exact (f_equal position
           (proj1 (X3_load_draws duplicate_world _ _ _
                     eq_refl eq_refl eq_refl))).
Defined.

(** ** The format check *)

(** X4.  The format check accepts exactly the strings made of six decimal
    digits of any script (Unicode category Nd), alone or followed by one
    newline. *)
Theorem X4_validation_accepts_exactly (s : str) :
  Re.re_match postal_pattern s = true
  <-> exists digits,
        List.length digits = 6%nat
        /\ forallb Re.is_decimal digits = true
        /\ (s = digits \/ s = digits ++ [10%N]).
Proof.
  rewrite postal_pattern_accepts. split.
  - intros (digits & tail & -> & L & D & T). exists digits.
    split; [exact L|]. split; [exact D|].
    destruct T as [-> | ->]; [left; apply app_nil_r | right; reflexivity].
  - intros (digits & L & D & [-> | ->]).
    + exists digits, []. rewrite app_nil_r. repeat split; try assumption.
      left. reflexivity.
    + exists digits, [10%N]. repeat split; try assumption.
      right. reflexivity.
Qed.

Lemma ascii_decimal_is_ascii_digit (c : N) :
  (c < 128)%N -> Re.is_decimal c = true -> is_ascii_digit c = true.
Proof.
  intros A D. unfold Re.is_decimal in D. apply orb_true_iff in D.
  unfold is_ascii_digit. apply andb_true_iff.
  destruct D as [D|D].
  - apply existsb_exists in D. destruct D as (lo & I & B).
    apply andb_true_iff in B. destruct B as [B1 B2].
    apply N.leb_le in B1. apply N.ltb_lt in B2.
    unfold Re.digit_decades in I. cbn [In] in I.
    repeat (destruct I as [I|I];
            [subst lo; split; apply N.leb_le; lia|]).
    destruct I.
  - apply andb_true_iff in D. destruct D as [D _]. apply N.leb_le in D. lia.
Qed.

(** X5.  On what the text input can hold when only ASCII is typed (at most
    six characters, all below U+0080), the format check accepts exactly the
    strings of six ASCII digits. *)
Theorem X5_validation_exact_on_ascii (s : str) :
  Forall (fun c => (c < 128)%N) s ->
  (List.length s <= 6)%nat ->
  Re.re_match postal_pattern s = well_formed_postal_code s.
Proof.
  intros A L.
  destruct (well_formed_postal_code s) eqn:W.
  - apply well_formed_is_accepted. exact W.
  - destruct (Re.re_match postal_pattern s) eqn:M; [exfalso|reflexivity].
    apply postal_pattern_accepts in M.
    destruct M as (digits & tail & -> & Ld & D & T).
    rewrite length_app in L.
    destruct T as [-> | ->]; [|cbn [List.length] in L; lia].
    rewrite app_nil_r in *.
    unfold well_formed_postal_code in W. rewrite Ld in W.
    cbn [Nat.eqb andb] in W.
    assert (forallb is_ascii_digit digits = true) as Y; [|congruence].
    apply forallb_forall. intros c Hc.
    apply ascii_decimal_is_ascii_digit.
    + rewrite Forall_forall in A. apply A. exact Hc.
    + rewrite forallb_forall in D. apply D. exact Hc.
Qed.

Lemma X5_validation_exact_on_ascii_witness :
  Forall (fun c => (c < 128)%N) (lit "12a456")
  /\ (List.length (lit "12a456") <= 6)%nat
  /\ Re.re_match postal_pattern (lit "12a456") = false.
Proof.
  assert (Forall (fun c => (c < 128)%N) (lit "12a456")) as A.
  { repeat constructor. }
  assert (List.length (lit "12a456") <= 6)%nat as L.
  { cbn. lia. }
  split; [exact A|]. split; [exact L|].
  exact (X5_validation_exact_on_ascii (lit "12a456") A L).
Defined.

(** ** Runs of the script *)

(** The three runs that do not reach the lookup. *)
Lemma main_invalid (w : World) (store : dict Entry) (code : str)
  (search : bool) :
  cache w = Some store ->
  truthy code = true -> Re.re_match postal_pattern code = false ->
  main w code search
  = Some (Error invalid_format_message,
          set_session w
            {| postal_search := Some code;
               last_search :=
                 Some (or_default (last_search (session_state w))) |}).
Proof.
  intros C T M. unfold main, load_data. rewrite C, T, M. reflexivity.
Qed.

Lemma main_empty (w : World) (store : dict Entry) (search : bool) :
  cache w = Some store ->
  main w [] search
  = Some (Info prompt_message,
          set_session w
            {| postal_search := Some [];
               last_search :=
                 Some (or_default (last_search (session_state w))) |}).
Proof.
  intros C. unfold main, load_data. rewrite C. cbn [truthy andb negb].
  rewrite andb_false_r. reflexivity.
Qed.

Lemma main_idle (w : World) (store : dict Entry) (code : str) :
  cache w = Some store ->
  truthy code = true -> Re.re_match postal_pattern code = true ->
  or_default (last_search (session_state w)) = code
  \/ List.length code <> 6%nat ->
  main w code false
  = Some (Blank,
          set_session w
            {| postal_search := Some code;
               last_search :=
                 Some (or_default (last_search (session_state w))) |}).
Proof.
  intros C T M I. unfold main, load_data. rewrite C, T, M.
  cbn [negb andb orb last_search or_default].
  replace (negb (PyStr.eqb code (or_default (last_search (session_state w))))
           && (List.length code =? 6)%nat) with false; [reflexivity|].
  symmetry. destruct I as [E|N].
  - rewrite E, str_eqb_refl. reflexivity.
  - apply Nat.eqb_neq in N. rewrite N. apply andb_false_r.
Qed.

(** X6.  A non-empty input that fails the format check ends the run with
    the invalid-format message: nothing is looked up, no random number is
    drawn, and the last searched code is kept, whether the button was
    pressed or not. *)
Theorem X6_invalid_input_stops_the_run (w : World) (store : dict Entry)
  (code : str) (search : bool) :
  cache w = Some store ->
  truthy code = true -> Re.re_match postal_pattern code = false ->
  exists w',
    main w code search = Some (Error invalid_format_message, w')
    /\ last_search (session_state w')
       = Some (or_default (last_search (session_state w)))
    /\ postal_search (session_state w') = Some code
    /\ rng w' = rng w /\ cache w' = Some store.
Proof.
  intros C T M. rewrite (main_invalid w store code search C T M).
  eexists. split; [reflexivity|]. repeat split. exact C.
Qed.

Lemma X6_invalid_input_stops_the_run_witness :
  exists w',
    main loaded_world (lit "12345") true
    = Some (Error invalid_format_message, w')
    /\ last_search (session_state w') = Some []
    /\ postal_search (session_state w') = Some (lit "12345")
    /\ rng w' = rng loaded_world /\ cache w' = Some loaded_store.
Proof.
  exact (X6_invalid_input_stops_the_run loaded_world loaded_store
           (lit "12345") true eq_refl eq_refl eq_refl).
Defined.

(** X7.  An empty input is never an error: with or without the button the
    run shows the prompt, looks nothing up and draws nothing; right after
    the Clear callback such a run leaves the world as it is. *)
Theorem X7_empty_input_prompts (w : World) (store : dict Entry)
  (search : bool) :
  cache w = Some store ->
  (exists w',
     main w [] search = Some (Info prompt_message, w')
     /\ rng w' = rng w /\ cache w' = Some store
     /\ last_search (session_state w')
        = Some (or_default (last_search (session_state w))))
  /\ main (clear_input w) [] search
     = Some (Info prompt_message, clear_input w).
Proof.
  intros C. split.
  - rewrite (main_empty w store search C). eexists.
    split; [reflexivity|]. repeat split. exact C.
  - rewrite (main_empty (clear_input w) store search C). reflexivity.
Qed.

Lemma X7_empty_input_prompts_witness :
  main (clear_input loaded_world) [] true
  = Some (Info prompt_message, clear_input loaded_world).
Proof.
  exact (proj2 (X7_empty_input_prompts loaded_world loaded_store true
                  eq_refl)).
Defined.

(** What a run that reaches the lookup leaves behind. *)
Lemma main_after_lookup (w w' : World) (store : dict Entry) (code : str)
  (search : bool) (o : Outcome) :
  cache w = Some store ->
  well_formed_postal_code code = true ->
  search = true \/ or_default (last_search (session_state w)) <> code ->
  main w code search = Some (o, w') ->
  last_search (session_state w') = Some code /\ cache w' = Some store.
Proof.
  intros C WF T. rewrite (main_reaches_lookup w store code search C WF T).
  cbv zeta. destruct (PyDict.get code store) as [entry|].
  - destruct (reportable entry); [|discriminate].
    intros [= _ <-]. split; [reflexivity | exact C].
  - intros [= _ <-]. split; [reflexivity | exact C].
Qed.

(** X8.  After a search of a well-formed code, found or not, a further run
    with the same code and the button not pressed shows nothing at all: no
    report, no message, and no random number is drawn. *)
Theorem X8_same_code_without_button (w w1 : World) (store : dict Entry)
  (code : str) (search : bool) (o : Outcome) :
  cache w = Some store ->
  well_formed_postal_code code = true ->
  search = true \/ or_default (last_search (session_state w)) <> code ->
  main w code search = Some (o, w1) ->
  exists w2,
    main w1 code false = Some (Blank, w2)
    /\ rng w2 = rng w1 /\ cache w2 = Some store.
Proof.
  intros C WF T R.
  destruct (main_after_lookup w w1 store code search o C WF T R) as [LS C1].
  destruct (well_formed_is_truthy code WF) as [Tr _].
  eexists. split.
  - apply (main_idle w1 store code C1 Tr (well_formed_is_accepted code WF)).
    left. rewrite LS. reflexivity.
  - split; [reflexivity | exact C1].
Qed.

Lemma X8_same_code_without_button_witness :
  exists o w1 w2,
    main loaded_world (lit "999999") true = Some (o, w1)
    /\ main w1 (lit "999999") false = Some (Blank, w2)
    /\ rng w2 = rng w1 /\ cache w2 = Some loaded_store.
Proof.
  eexists. eexists.
  assert (exists w2,
             main (set_session loaded_world
                     {| postal_search := Some (lit "999999");
                        last_search := Some (lit "999999") |})
               (lit "999999") false = Some (Blank, w2)
             /\ rng w2
                = rng (set_session loaded_world
                         {| postal_search := Some (lit "999999");
                            last_search := Some (lit "999999") |})
             /\ cache w2 = Some loaded_store) as (w2 & H).
  { exact (X8_same_code_without_button loaded_world _ loaded_store
             (lit "999999") true (Error not_found_message)
             eq_refl eq_refl (or_introl eq_refl) eq_refl). }
  exists w2. split; [reflexivity | exact H].
Defined.

(** X9.  Two successive searches of a code of the store whose record is
    reportable report the same record and the same two flags, while the
    depths are drawn anew: the first report uses the next two draws of the
    random source, the second the two after them. *)
Theorem X9_flags_stable_depths_redrawn (w : World) (store : dict Entry)
  (code : str) (r : Entry) :
  cache w = Some store ->
  NoDup (PyDict.keys store) ->
  well_formed_postal_code code = true ->
  In (code, r) store ->
  reportable r = true ->
  let u := fun i => draws (rng w) (position (rng w) + i) in
  let depth := fun i => 0 + (1.5 - 0) * u i in
  exists w1 w2,
    main w code true
    = Some (Report r (make_flood_table_rows (depth 0%nat) (depth 1%nat))
              (IS_FLOOD_PRONE r) (IS_FLOOD_HOTSPOT r), w1)
    /\ main w1 code true
       = Some (Report r (make_flood_table_rows (depth 2%nat) (depth 3%nat))
                 (IS_FLOOD_PRONE r) (IS_FLOOD_HOTSPOT r), w2).
Proof.
  intros C ND WF I Rep u depth.
  pose proof (dict_get_in code r store ND I) as G.
  eexists. eexists. split.
  - rewrite (main_reaches_lookup w store code true C WF (or_introl eq_refl)).
    cbv zeta. rewrite G, Rep.
    unfold get_flood_depth, uniform, random, depth, u.
    cbn [fst snd rng set_session draws position].
    replace (position (rng w) + 0)%nat with (position (rng w)) by lia.
    replace (position (rng w) + 1)%nat with (S (position (rng w))) by lia.
    reflexivity.
  - match goal with
    | |- main ?w1 _ _ = _ =>
        rewrite (main_reaches_lookup w1 store code true C WF
                   (or_introl eq_refl))
    end.
    cbv zeta. rewrite G, Rep.
    unfold get_flood_depth, uniform, random, depth, u.
    cbn [fst snd rng set_session set_rng draws position].
    replace (position (rng w) + 2)%nat
      with (S (S (position (rng w)))) by lia.
    replace (position (rng w) + 3)%nat
      with (S (S (S (position (rng w))))) by lia.
    reflexivity.
Qed.

Lemma X9_flags_stable_depths_redrawn_witness :
  exists rows1 rows2 w1 w2,
    main loaded_world (lit "018989") true
    = Some (Report sample_entry rows1 true true, w1)
    /\ main w1 (lit "018989") true
       = Some (Report sample_entry rows2 true true, w2).
Proof.
  assert (NoDup (PyDict.keys loaded_store)) as ND.
  { constructor; [intros [] | constructor]. }
  destruct (X9_flags_stable_depths_redrawn loaded_world loaded_store
              (lit "018989") sample_entry eq_refl ND eq_refl
              (or_introl eq_refl) eq_refl) as (w1 & w2 & H1 & H2).
  eexists. eexists. exists w1, w2. split; [exact H1 | exact H2].
Defined.

Lemma in_range_is_finite (x : float) :
  (0 <=? x) = true -> (x <=? 1.5) = true -> is_finite x = true.
Proof.
  rewrite is_finite_spec, !FloatAxioms.leb_spec.
  rewrite FloatFacts.Prim2SF_zero, FloatFacts.Prim2SF_1_5.
  unfold SFleb, SFcompare.
  destruct (Prim2SF x) as [s|s| |s m e]; try reflexivity;
    try destruct s; intros; try reflexivity; discriminate.
Qed.

(** X10.  With a random source whose draws lie in [0, 1), the report of a
    found code whose record is reportable carries a table of two rows,
    Baseline then RCP8.5, built from two finite depths, and both depth
    strings have exactly two decimal places. *)
Theorem X10_report_rows (w : World) (store : dict Entry) (code : str)
  (search : bool) (r : Entry) :
  cache w = Some store ->
  NoDup (PyDict.keys store) ->
  well_formed_postal_code code = true ->
  search = true \/ or_default (last_search (session_state w)) <> code ->
  In (code, r) store ->
  reportable r = true ->
  (forall n, in_unit_interval (draws (rng w) n) = true) ->
  exists b f w',
    main w code search
    = Some (Report r (make_flood_table_rows b f)
              (IS_FLOOD_PRONE r) (IS_FLOOD_HOTSPOT r), w')
    /\ is_finite b = true /\ is_finite f = true
    /\ List.map Scenario (make_flood_table_rows b f)
       = [lit "Baseline"; lit "RCP8.5"]
    /\ Forall (fun row => two_decimal_places (Flood_Depth_m row) = true)
         (make_flood_table_rows b f).
Proof.
  intros C ND WF T I Rep U.
  rewrite (main_reaches_lookup w store code search C WF T). cbv zeta.
  rewrite (dict_get_in code r store ND I), Rep.
  unfold get_flood_depth, uniform, random.
  cbn [fst snd rng set_session draws position].
  pose proof (U (position (rng w))) as U1.
  pose proof (U (S (position (rng w)))) as U2.
  unfold in_unit_interval in U1, U2. apply andb_true_iff in U1, U2.
  destruct U1 as [A1 B1]. destruct U2 as [A2 B2].
  destruct (uniform_0_1_5_bounds _ A1 B1) as [L1 H1].
  destruct (uniform_0_1_5_bounds _ A2 B2) as [L2 H2].
  pose proof (in_range_is_finite _ L1 H1) as F1.
  pose proof (in_range_is_finite _ L2 H2) as F2.
  eexists. eexists. eexists. split; [reflexivity|].
  split; [exact F1|]. split; [exact F2|].
  rewrite make_flood_table_rows_eq. split.
  - cbn [List.map].
    destruct (table_row_fields (lit "Baseline")
                (0 + (1.5 - 0) * draws (rng w) (position (rng w))))
      as [-> _].
    destruct (table_row_fields (lit "RCP8.5")
                (0 + (1.5 - 0) * draws (rng w) (S (position (rng w)))))
      as [-> _].
    reflexivity.
  - repeat constructor.
    + destruct (table_row_fields (lit "Baseline")
                  (0 + (1.5 - 0) * draws (rng w) (position (rng w))))
        as (_ & -> & _).
      apply format_2f_two_decimal_places. exact F1.
    + destruct (table_row_fields (lit "RCP8.5")
                  (0 + (1.5 - 0) * draws (rng w) (S (position (rng w)))))
        as (_ & -> & _).
      apply format_2f_two_decimal_places. exact F2.
Qed.

Lemma X10_report_rows_witness :
  exists b f w',
    main loaded_world (lit "018989") true
    = Some (Report sample_entry (make_flood_table_rows b f) true true, w')
    /\ is_finite b = true /\ is_finite f = true
    /\ List.map Scenario (make_flood_table_rows b f)
       = [lit "Baseline"; lit "RCP8.5"]
    /\ Forall (fun row => two_decimal_places (Flood_Depth_m row) = true)
         (make_flood_table_rows b f).
Proof.
  assert (NoDup (PyDict.keys loaded_store)) as ND.
  { constructor; [intros [] | constructor]. }
  assert (forall n, in_unit_interval (draws (rng loaded_world) n) = true)
    as U.
  { intros n. cbn [draws rng loaded_world sample_source].
    destruct (n <? 2)%nat; reflexivity. }
  exact (X10_report_rows loaded_world loaded_store (lit "018989") true
           sample_entry eq_refl ND eq_refl (or_introl eq_refl)
           (or_introl eq_refl) eq_refl U).
Defined.



Lemma main_after_load (w w1 : World) (store : dict Entry) (code : str)
  (search : bool) :
  load_data w = Some (store, w1) ->
  main w code search = main w1 code search.
Proof.
  intros L. unfold main. rewrite L.
  pose proof (load_data_fills_cache w w1 store L) as C1.
  unfold load_data at 1. rewrite C1. reflexivity.
Qed.

(** X12.  Any run that does not fail leaves a store in the cache, and every
    later run, whatever its input, keeps that very store: the file is
    loaded, and the flags drawn, once.  When the run had to load it, the
    store has one record per key. *)
Theorem X12_store_loaded_once (w w' : World) (code : str) (search : bool)
  (o : Outcome) :
  main w code search = Some (o, w') ->
  exists store,
    cache w' = Some store
    /\ (cache w = None -> NoDup (PyDict.keys store))
    /\ forall code2 search2 o2 w'',
         main w' code2 search2 = Some (o2, w'') -> cache w'' = Some store.
Proof.
  intros R. destruct (load_data w) as [[store w1]|] eqn:L.
  - pose proof (load_data_fills_cache w w1 store L) as C1.
    rewrite (main_after_load w w1 store code search L) in R.
    pose proof (main_keeps_store w1 w' store code search o C1 R) as C'.
    exists store. split; [exact C'|]. split.
    + intros C0. unfold load_data in L. rewrite C0 in L.
      destruct (load_data_body w) as [[d' w0]|] eqn:B; [|discriminate L].
      injection L as <- _.
      apply (load_data_body_keys_unique w w0 d' B).
    + intros code2 search2 o2 w'' R2.
      apply (main_keeps_store w' w'' store code2 search2 o2 C' R2).
  - unfold main in R. rewrite L in R. discriminate R.
Qed.

Lemma X12_store_loaded_once_witness :
  exists o w',
    main fresh_world (lit "999999") true = Some (o, w')
    /\ exists store,
         cache w' = Some store
         /\ (cache fresh_world = None -> NoDup (PyDict.keys store))
         /\ forall code2 search2 o2 w'',
              main w' code2 search2 = Some (o2, w'') ->
              cache w'' = Some store.
Proof.
  eexists. eexists. split; [reflexivity|].
  exact (X12_store_loaded_once fresh_world _ (lit "999999") true _ eq_refl).
Defined.

(** ** The classifier and the helpers *)

Ltac two_floats a b :=
  rewrite ?FloatAxioms.ltb_spec, ?FloatAxioms.leb_spec;
  rewrite ?FloatFacts.Prim2SF_half, ?FloatFacts.Prim2SF_one;
  unfold SFltb, SFleb, SFcompare;
  destruct (Prim2SF a) as [sa|sa| |sa ma ea]; try destruct sa;
  destruct (Prim2SF b) as [sb|sb| |sb mb eb]; try destruct sb;
  FloatFacts.cmp_cases; cbn [CompOpp]; intros; try congruence; try lia.

Lemma le_lt_half (a b : float) :
  (a <=? b) = true -> (b <? 0.5) = true -> (a <? 0.5) = true.
Proof. two_floats a b. Qed.

Lemma le_le_one (a b : float) :
  (a <=? b) = true -> (b <=? 1.0) = true -> (a <=? 1.0) = true.
Proof. two_floats a b. Qed.

(** X13.  The classifier is monotone: when a depth is at most another one,
    the second being Low makes the first Low, and the first being High
    makes the second High; a deeper flood is never given a lower level. *)
Theorem X13_classifier_is_monotone (a b : float) :
  (a <=? b) = true ->
  (fst (get_risk_class b) = lit "Low" -> fst (get_risk_class a) = lit "Low")
  /\ (fst (get_risk_class a) = lit "High"
      -> fst (get_risk_class b) = lit "High").
Proof.
  intros H.
  destruct (get_risk_class_cases a)
    as [[La Ea]|[(La & Ma & Ea)|(La & Ma & Ea)]];
  destruct (get_risk_class_cases b)
    as [[Lb Eb]|[(Lb & Mb & Eb)|(Lb & Mb & Eb)]];
    rewrite Ea, Eb; cbn [fst]; split; intros K;
    try reflexivity; try discriminate K; exfalso.
  - pose proof (le_lt_half a b H Lb). congruence.
  - pose proof (le_lt_half a b H Lb). congruence.
  - pose proof (le_lt_half a b H Lb). congruence.
  - pose proof (le_le_one a b H Mb). congruence.
Qed.

Lemma X13_classifier_is_monotone_witness :
  (1.2 <=? 1.4) = true
  /\ (fst (get_risk_class 1.2) = lit "High"
      -> fst (get_risk_class 1.4) = lit "High").
Proof.
  split; [reflexivity|].
  exact (proj2 (X13_classifier_is_monotone 1.2 1.4 eq_refl)).
Defined.

(** X14.  The text-colour helper reads the six characters at positions 1
    to 6 only: the first character is not checked to be '#', and whatever
    follows the sixth is ignored. *)
Theorem X14_text_color_reads_six_characters (c : N) (s rest : str) :
  List.length s = 6%nat ->
  get_text_color (c :: s ++ rest) = get_text_color (lit "#" ++ s).
Proof.
  intros L.
  destruct s as [|c1 [|c2 [|c3 [|c4 [|c5 [|c6 [|c7 more]]]]]]];
    try discriminate L.
  reflexivity.
Qed.

Lemma X14_text_color_reads_six_characters_witness :
  List.length (lit "da3af8") = 6%nat
  /\ get_text_color (lit "xda3af8ff") = get_text_color (lit "#da3af8").
Proof.
  split; [reflexivity|].
  exact (X14_text_color_reads_six_characters 120 (lit "da3af8") (lit "ff")
           eq_refl).
Defined.

(** X15.  On a string of five characters or fewer the text-colour helper
    fails: the last slice is empty and [int] raises on it, if not on an
    earlier one. *)
Theorem X15_text_color_too_short (bg : str) :
  (List.length bg <= 5)%nat -> get_text_color bg = None.
Proof.
  intros L. unfold get_text_color.
  assert (slice 5 7 bg = []) as E.
  { destruct bg as [|c0 [|c1 [|c2 [|c3 [|c4 [|c5 more]]]]]];
      try reflexivity. cbn [List.length] in L. lia. }
  rewrite E. cbn [int16].
  destruct (int16 (slice 1 3 bg)); [|reflexivity].
  destruct (int16 (slice 3 5 bg)); reflexivity.
Qed.

Lemma X15_text_color_too_short_witness :
  (List.length (lit "#fff") <= 5)%nat /\ get_text_color (lit "#fff") = None.
Proof.
  assert (List.length (lit "#fff") <= 5)%nat as L by (cbn; lia).
  split; [exact L | exact (X15_text_color_too_short (lit "#fff") L)].
Defined.

(** X16.  [highlight_risk] fails (the [next] of the source raises
    StopIteration) exactly when no row of the table has the scenario of the
    row it is given; so it fails on an empty table. *)
Theorem X16_highlight_fails_without_scenario (row : Row) (rows : list Row) :
  highlight_risk row rows = None
  <-> forall r, In r rows -> Scenario r <> Scenario row.
Proof.
  unfold highlight_risk.
  destruct (find (fun r => PyStr.eqb (Scenario r) (Scenario row)) rows)
    as [r0|] eqn:F.
  - split; [discriminate|]. intros H. apply find_some in F.
    destruct F as [I E]. apply str_eqb_eq in E. exfalso.
    apply (H r0 I E).
  - split; [|reflexivity]. intros _ r I E.
    pose proof (find_none _ _ F r I) as N. cbv beta in N.
    rewrite E, str_eqb_refl in N. discriminate N.
Qed.

(** X17.  When several rows of the table have the scenario of the given
    row, [highlight_risk] takes the colour of the first of them. *)
Theorem X17_highlight_takes_first_match (row : Row)
  (before after : list Row) (r : Row) :
  (forall r', In r' before -> Scenario r' <> Scenario row) ->
  Scenario r = Scenario row ->
  highlight_risk row (before ++ r :: after)
  = Some [ []; []; lit "color: " ++ Color r ++ lit "; font-weight: bold;" ].
Proof.
  intros H E. unfold highlight_risk.
  assert (find (fun r0 => PyStr.eqb (Scenario r0) (Scenario row))
            (before ++ r :: after) = Some r) as ->; [|reflexivity].
  induction before as [|b before IH]; cbn [app find].
  - rewrite E, str_eqb_refl. reflexivity.
  - assert (PyStr.eqb (Scenario b) (Scenario row) = false) as ->.
    { apply str_eqb_neq. apply H. left. reflexivity. }
    apply IH. intros r' I. apply H. right. exact I.
Qed.

Lemma X17_highlight_takes_first_match_witness :
  highlight_risk (table_row (lit "RCP8.5") 0.2)
    ([table_row (lit "Baseline") 0.3]
       ++ table_row (lit "RCP8.5") 1.2 :: [table_row (lit "RCP8.5") 0.2])
  = Some [ []; []; lit "color: #ff595e; font-weight: bold;" ].
Proof.
  apply (X17_highlight_takes_first_match (table_row (lit "RCP8.5") 0.2)
           [table_row (lit "Baseline") 0.3]
           [table_row (lit "RCP8.5") 0.2]
           (table_row (lit "RCP8.5") 1.2)).
  - intros r' [<-|[]]. discriminate.
  - reflexivity.
Defined.

(** X18.  For the table of any two depths, the data frame shown has, in
    each of its two rows, exactly the three columns Scenario, Flood Depth
    (m) and Risk Level with the values of the table row (the column Color
    is dropped), and the style computed for each row is a list of three
    entries, one per column: none for the first two, and for Risk Level
    the bold colour that the classifier gives to the depth of that row. *)
Theorem X18_styles_match_columns (b f : float) :
  styled_rows (make_flood_table_rows b f)
  = [ ([ (lit "Scenario", lit "Baseline");
         (lit "Flood Depth (m)", format_2f b);
         (lit "Risk Level", fst (get_risk_class b)) ],
       Some [ []; [];
              lit "color: " ++ snd (get_risk_class b)
                ++ lit "; font-weight: bold;" ]);
      ([ (lit "Scenario", lit "RCP8.5");
         (lit "Flood Depth (m)", format_2f f);
         (lit "Risk Level", fst (get_risk_class f)) ],
       Some [ []; [];
              lit "color: " ++ snd (get_risk_class f)
                ++ lit "; font-weight: bold;" ]) ]
  /\ Forall
       (fun rs : dict str * option (list str) =>
          ~ In (lit "Color") (PyDict.keys (fst rs))
          /\ exists styles,
               snd rs = Some styles
               /\ List.length styles = List.length (PyDict.keys (fst rs)))
       (styled_rows (make_flood_table_rows b f)).
Proof.
  assert (styled_rows (make_flood_table_rows b f)
          = [ ([ (lit "Scenario", lit "Baseline");
                 (lit "Flood Depth (m)", format_2f b);
                 (lit "Risk Level", fst (get_risk_class b)) ],
               Some [ []; [];
                      lit "color: " ++ snd (get_risk_class b)
                        ++ lit "; font-weight: bold;" ]);
              ([ (lit "Scenario", lit "RCP8.5");
                 (lit "Flood Depth (m)", format_2f f);
                 (lit "Risk Level", fst (get_risk_class f)) ],
               Some [ []; [];
                      lit "color: " ++ snd (get_risk_class f)
                        ++ lit "; font-weight: bold;" ]) ]) as E.
  { rewrite make_flood_table_rows_eq. unfold styled_rows, table_row.
    destruct (get_risk_class b) as [rb cb].
    destruct (get_risk_class f) as [rf cf].
    reflexivity. }
  split; [exact E|]. rewrite E.
  repeat constructor; cbn [fst snd PyDict.keys List.map In].
  - intros [H|[H|[H|[]]]]; discriminate H.
  - eexists. split; reflexivity.
  - intros [H|[H|[H|[]]]]; discriminate H.
  - eexists. split; reflexivity.
Qed.

(** ** The printed depth *)

Lemma to_string_lit (s : string) : to_string (lit s) = s.
Proof.
  unfold to_string, lit. rewrite map_map.
  rewrite (map_ext _ (fun a => a)) by apply ascii_N_embedding.
  rewrite map_id. apply string_of_list_ascii_of_string.
Qed.

Lemma read_decimal (n : Z) : read_digits (decimal n) = Some (Z.to_N n).
Proof.
  unfold read_digits, decimal. rewrite to_string_lit.
  destruct (NilZero.usu_gen (N.to_uint (Z.to_N n))) as [E|E]; rewrite E;
    cbn [option_map].
  - rewrite DecimalN.Unsigned.of_to. reflexivity.
  - destruct (Z.to_N n) as [|p] eqn:En; [reflexivity|].
    exfalso. cbn [N.to_uint] in E.
    pose proof (NilZero.usu (Pos.to_uint p)
                  (DecimalPos.Unsigned.to_uint_nonnil p)) as U.
    rewrite U in E. injection E as E.
    apply (f_equal Pos.of_uint) in E. rewrite DecimalPos.Unsigned.of_to in E.
    discriminate E.
Qed.

Lemma read_two_digits (a b : Z) :
  (0 <= a < 10)%Z -> (0 <= b < 10)%Z ->
  read_digits [digit_char a; digit_char b] = Some (Z.to_N (10 * a + b)).
Proof.
  intros Ha Hb.
  assert (a = 0 \/ a = 1 \/ a = 2 \/ a = 3 \/ a = 4 \/ a = 5 \/ a = 6 \/ a = 7
          \/ a = 8 \/ a = 9)%Z as A by lia.
  assert (b = 0 \/ b = 1 \/ b = 2 \/ b = 3 \/ b = 4 \/ b = 5 \/ b = 6 \/ b = 7
          \/ b = 8 \/ b = 9)%Z as B by lia.
  repeat (destruct A as [A|A]; [subst a|]); try subst a;
    repeat (destruct B as [B|B]; [subst b|]); try subst b;
    reflexivity.
Qed.

Lemma read_2f_intro (s : bool) (q a b : Z) :
  (0 <= q)%Z -> (0 <= a < 10)%Z -> (0 <= b < 10)%Z ->
  read_2f (sign_str s ++ decimal q ++ lit "." ++ [digit_char a; digit_char b])
  = Some (s, Z.to_N (100 * q + 10 * a + b)).
Proof.
  intros Hq Ha Hb. unfold read_2f.
  rewrite !rev_app_distr. cbn [rev lit list_ascii_of_string List.map app].
  replace (N_of_ascii ".") with 46%N by reflexivity.
  rewrite rev_app_distr, !rev_involutive.
  assert (match sign_str s ++ decimal q with
          | 45%N :: t => (true, t)
          | _ => (false, sign_str s ++ decimal q)
          end = (s, decimal q)) as ->.
  { destruct s; [reflexivity|]. cbn [sign_str app].
    destruct (decimal_digits q) as [T D].
    destruct (decimal q) as [|c t]; [discriminate T|].
    cbn [forallb] in D. apply andb_true_iff in D. destruct D as [Dc _].
    destruct c as [|p]; [discriminate Dc|].
    repeat match goal with
           | |- context [match ?x with xI _ => _ | xO _ => _ | xH => _ end] =>
               is_var x; destruct x
           end; try reflexivity; discriminate Dc. }
  cbn [fst snd]. rewrite read_decimal, (read_two_digits a b Ha Hb).
  f_equal. f_equal. lia.
Qed.

Lemma hundredths_nonneg (m : positive) (e : Z) : (0 <= hundredths m e)%Z.
Proof.
  unfold hundredths. destruct (0 <=? e)%Z eqn:E.
  - apply Z.leb_le in E. pose proof (Z.pow_nonneg 2 e ltac:(lia)). nia.
  - apply Z.leb_gt in E. unfold div_half_even.
    assert (0 < 2 ^ (- e))%Z as P by (apply Z.pow_pos_nonneg; lia).
    pose proof (Z.div_pos (100 * Z.pos m) (2 ^ (- e)) ltac:(lia) P) as Q.
    destruct (2 * ((100 * Z.pos m) mod 2 ^ (- e)) <? 2 ^ (- e))%Z;
      [exact Q|].
    destruct (2 ^ (- e) <? 2 * ((100 * Z.pos m) mod 2 ^ (- e)))%Z; [lia|].
    destruct (Z.even (100 * Z.pos m / 2 ^ (- e))); lia.
Qed.

(** X19.  The depth string of a row, read back as a decimal number, is the
    depth rounded to a nearest hundredth with its sign: for a finite depth
    of sign [s] and magnitude [m * 2^e] it reads as [s] and [h] hundredths,
    where [h] is exact when [e >= 0] and within half a hundredth of
    [100 * m * 2^e] otherwise. *)
Theorem X19_depth_string_reads_back (d : float) (s : bool) (m : positive)
  (e : Z) :
  Prim2SF d = S754_finite s m e ->
  exists h : Z,
    read_2f (format_2f d) = Some (s, Z.to_N h)
    /\ (0 <= h)%Z
    /\ (0 <= e -> h = 100 * Z.pos m * 2 ^ e)%Z
    /\ (e < 0 ->
        2 * Z.abs (100 * Z.pos m - 2 ^ (- e) * h) <= 2 ^ (- e))%Z.
Proof.
  intros P. exists (hundredths m e).
  pose proof (hundredths_nonneg m e) as H.
  split; [|split; [exact H|split]].
  - unfold format_2f. rewrite P.
    set (h := hundredths m e) in *.
    rewrite read_2f_intro.
    + f_equal. f_equal. f_equal.
      pose proof (Z.div_mod h 100 ltac:(lia)).
      pose proof (Z.div_mod h 10 ltac:(lia)).
      pose proof (Z.div_mod (h / 10) 10 ltac:(lia)).
      pose proof (Z.div_div h 10 10 ltac:(lia) ltac:(lia)) as DD.
      change (10 * 10)%Z with 100%Z in DD. lia.
    + apply Z.div_pos; lia.
    + apply Z.mod_pos_bound. lia.
    + apply Z.mod_pos_bound. lia.
  - intros He. unfold hundredths.
    replace (0 <=? e)%Z with true by (symmetry; apply Z.leb_le; lia).
    reflexivity.
  - intros He. unfold hundredths.
    replace (0 <=? e)%Z with false by (symmetry; apply Z.leb_gt; lia).
    apply div_half_even_nearest. apply Z.pow_pos_nonneg; lia.
Qed.

Lemma X19_depth_string_reads_back_witness :
  Prim2SF 0.125 = S754_finite false 4503599627370496 (-55)
  /\ format_2f 0.125 = lit "0.12"
  /\ exists h : Z,
       read_2f (format_2f 0.125) = Some (false, Z.to_N h) /\ (0 <= h)%Z.
Proof.
  assert (Prim2SF 0.125 = S754_finite false 4503599627370496 (-55)) as P.
  { vm_compute. reflexivity. }
  split; [exact P|]. split; [vm_compute; reflexivity|].
  destruct (X19_depth_string_reads_back 0.125 false 4503599627370496 (-55) P)
    as (h & R & H & _).
  exists h. split; [exact R | exact H].
Defined.
